(** * demo/test-server.py: the static demo server

    The script subclasses [http.server.SimpleHTTPRequestHandler], overrides
    [end_headers] and [do_GET], changes to its own directory, prints two
    lines, and runs a [socketserver.TCPServer] until Ctrl+C.

    The script's own code is lines 9-36 of [demo/test-server.py]; everything
    else it runs is the Python standard library ([http/server.py],
    [socketserver.py], [posixpath.py]).  The library methods the script calls
    or inherits are embedded method by method below, each under the name it
    has in the library.  Library functions that only compute text (MIME
    guessing, date formatting, percent-decoding, HTML pages) are fields of
    the [stdlib] record, and so every result holds for any choice of them.
    A connection brings its request line, its header lines and the time at
    which it is answered; the handler parses the line with [parse_request]
    before any method of the script runs. *)

From Stdlib Require Import String Ascii List Bool Arith ZArith Lia.
From Stdlib Require Import DecimalString.
Set Warnings "-abstract-large-number".
Import ListNotations.
Local Open Scope list_scope.
Local Open Scope string_scope.

(** ** Python strings *)

Module Py.

Definition CR : ascii := "013"%char.
Definition LF : ascii := "010"%char.
Definition CRLF : string := String CR (String LF "").
Definition NL : string := String LF "".

(** [str(n)] for a non-negative integer. *)
Definition str (n : nat) : string := NilEmpty.string_of_uint (Nat.to_uint n).

(** [len(s)] *)
Definition len (s : string) : nat := String.length s.

(** [s.startswith(p)] *)
Definition startswith (p s : string) : bool := String.prefix p s.

(** [s.endswith(c)] for a one-character [c]. *)
Fixpoint endswith (c : ascii) (s : string) : bool :=
  match s with
  | "" => false
  | String a "" => Ascii.eqb a c
  | String _ r => endswith c r
  end.

(** [c in s] for a one-character [c]. *)
Fixpoint contains (c : ascii) (s : string) : bool :=
  match s with
  | "" => false
  | String a r => Ascii.eqb a c || contains c r
  end.

(** [s.split(c, 1)[0]]: the part of [s] before the first [c]. *)
Fixpoint before (c : ascii) (s : string) : string :=
  match s with
  | "" => ""
  | String a r => if Ascii.eqb a c then "" else String a (before c r)
  end.

(** [s.split(c)] for a one-character separator. *)
Fixpoint split (c : ascii) (s : string) : list string :=
  match s with
  | "" => [""]
  | String a r =>
      if Ascii.eqb a c then "" :: split c r
      else match split c r with
           | w :: ws => String a w :: ws
           | [] => [String a ""]
           end
  end.

(** [sep.join(l)] *)
Fixpoint join (sep : string) (l : list string) : string :=
  match l with
  | [] => ""
  | [x] => x
  | x :: r => x ++ sep ++ join sep r
  end.

(** [b"".join(l)] *)
Definition concat (l : list string) : string := fold_right String.append "" l.

(** [s.rstrip(c)] for a one-character [c]. *)
Fixpoint rstrip (c : ascii) (s : string) : string :=
  match s with
  | "" => ""
  | String a r =>
      match rstrip c r with
      | "" => if Ascii.eqb a c then "" else String a ""
      | r' => String a r'
      end
  end.

(** [s.lstrip(c)] for a one-character [c]. *)
Fixpoint lstrip (c : ascii) (s : string) : string :=
  match s with
  | "" => ""
  | String a r => if Ascii.eqb a c then lstrip c r else s
  end.

(** [c.isspace()] for a character of a string decoded as ISO-8859-1: tab to
    carriage return, the separators 0x1c to 0x1f, space, NEL and the
    no-break space. *)
Definition is_space (a : ascii) : bool :=
  let n := nat_of_ascii a in
  (((9 <=? n) && (n <=? 13)) || ((28 <=? n) && (n <=? 32))
   || (n =? 133) || (n =? 160))%nat.

(** [s.rstrip()]: trailing white space removed. *)
Fixpoint rstrip_space (s : string) : string :=
  match s with
  | "" => ""
  | String a r =>
      match rstrip_space r with
      | "" => if is_space a then "" else String a ""
      | r' => String a r'
      end
  end.

Definition lower_ascii (a : ascii) : ascii :=
  let n := nat_of_ascii a in
  if ((65 <=? n) && (n <=? 90))%nat then ascii_of_nat (n + 32) else a.

(** [s.lower()] on ASCII text. *)
Fixpoint lower (s : string) : string :=
  match s with
  | "" => ""
  | String a r => String (lower_ascii a) (lower r)
  end.

(** Truth value of a string: [bool(s)]. *)
Definition truthy (s : string) : bool :=
  match s with "" => false | _ => true end.

(** The loop of [s.split()]: [cur] is the word being read. *)
Fixpoint split_words (cur s : string) : list string :=
  match s with
  | "" => if truthy cur then [cur] else []
  | String a r =>
      if is_space a then
        if truthy cur then cur :: split_words "" r else split_words "" r
      else split_words (cur ++ String a "") r
  end.

(** [s.split()]: the words between runs of white space. *)
Definition split_ws (s : string) : list string := split_words "" s.

(** [s.rstrip(chars)] *)
Fixpoint rstrip_chars (chars : list ascii) (s : string) : string :=
  match s with
  | "" => ""
  | String a r =>
      match rstrip_chars chars r with
      | "" => if existsb (Ascii.eqb a) chars then "" else String a ""
      | r' => String a r'
      end
  end.

(** [s.split(c, 1)[1]]: the part of [s] after the first [c]; [None] is the
    [IndexError] when [c] is not in [s]. *)
Fixpoint after (c : ascii) (s : string) : option string :=
  match s with
  | "" => None
  | String a r => if Ascii.eqb a c then Some r else after c r
  end.

(** [l[-1]] of a list that is not empty. *)
Definition last_word (l : list string) : string := List.last l "".

(** [s >= t] on strings. *)
Definition ge (s t : string) : bool :=
  match String.compare s t with
  | Lt => false
  | _ => true
  end.

End Py.

(** ** posixpath *)

Module posixpath.

Definition sep : ascii := "/"%char.

(** [posixpath.join(a, b)] *)
Definition join (a b : string) : string :=
  if Py.startswith "/" b then b
  else if negb (Py.truthy a) || Py.endswith sep a then a ++ b
  else a ++ "/" ++ b.

(** [p[:p.rfind('/') + 1]] *)
Fixpoint head (p : string) : string :=
  match p with
  | "" => ""
  | String a r =>
      match head r with
      | "" => if Ascii.eqb a sep then "/" else ""
      | h => String a h
      end
  end.

Fixpoint all_sep (s : string) : bool :=
  match s with
  | "" => true
  | String a r => Ascii.eqb a sep && all_sep r
  end.

(** [posixpath.dirname(p)] *)
Definition dirname (p : string) : string :=
  let h := head p in
  if Py.truthy h && negb (all_sep h) then Py.rstrip sep h else h.

(** [posixpath.isabs(p)] *)
Definition isabs (p : string) : bool := Py.startswith "/" p.

(** The loop of [posixpath.normpath] over the components. *)
Fixpoint norm_comps (initial_slashes : nat) (comps new_comps : list string)
  : list string :=
  match comps with
  | [] => new_comps
  | comp :: rest =>
      if (comp =? "") || (comp =? ".") then
        norm_comps initial_slashes rest new_comps
      else if negb (comp =? "..")
              || ((initial_slashes =? 0)%nat && (length new_comps =? 0)%nat)
              || (match List.rev new_comps with
                  | last :: _ => last =? ".."
                  | [] => false
                  end)
      then norm_comps initial_slashes rest (new_comps ++ [comp])%list
      else norm_comps initial_slashes rest (removelast new_comps)
  end.

(** [posixpath.normpath(path)] *)
Definition normpath (path : string) : string :=
  if negb (Py.truthy path) then "."
  else
    let initial_slashes :=
      if Py.startswith "/" path then
        if Py.startswith "//" path && negb (Py.startswith "///" path)
        then 2 else 1
      else 0 in
    let comps := norm_comps initial_slashes (Py.split sep path) [] in
    let p := Py.join "/" comps in
    let p := match initial_slashes with
             | 0 => p
             | 1 => "/" ++ p
             | _ => "//" ++ p
             end in
    if Py.truthy p then p else ".".

(** [os.path.abspath(path)] in a process whose directory is [cwd]. *)
Definition abspath (cwd path : string) : string :=
  normpath (if isabs path then path else join cwd path).

End posixpath.

(** ** The objects a request handler works on *)

(** Python exceptions that occur in the script and the library code it runs.
    [KeyboardInterrupt] and [SystemExit] derive from [BaseException] only;
    the others derive from [Exception]. *)
Inductive exn : Type :=
| OSError
| ValueError
| KeyboardInterrupt
| SystemExit (code : nat).

Definition is_Exception (e : exn) : bool :=
  match e with
  | OSError | ValueError => true
  | KeyboardInterrupt | SystemExit _ => false
  end.

(** One [wfile.write] of the handler.  A header block is written in one call,
    [wfile.write(b"".join(self._headers_buffer))]; its lines are kept apart
    here and [wire] joins them. *)
Inductive chunk : Type :=
| Head (lines : list string)
| Body (data : string).

Definition wire_chunk (c : chunk) : string :=
  match c with
  | Head lines => Py.concat lines
  | Body data => data
  end.

(** The bytes a connection receives. *)
Definition wire (w : list chunk) : string := Py.concat (map wire_chunk w).

(** What [log_request] and [log_error] pass to [log_message].  The prefix
    [log_message] adds (client address, time) and the request line are left
    out; [sys.stderr] is the only place they go to. *)
Inductive log_entry : Type :=
| LogRequest (code : nat)
| LogError (code : nat) (message : string).

(** An open file: [open(path, 'rb')] together with its [os.fstat]. *)
Record file : Type := mkFile {
  content : string;
  st_mtime : nat
}.

(** [open(path, 'rb')] returns a file, or raises [OSError] (no such file,
    permission denied, is a directory), or raises [ValueError] (a NUL
    character in the name). *)
Inductive open_result : Type :=
| Opened (f : file)
| OpenOSError
| OpenValueError.

(** The file system as the handler reads it. *)
Record filesystem : Type := mkFs {
  isdir : string -> bool;                  (* os.path.isdir *)
  isfile : string -> bool;                 (* os.path.isfile *)
  open_rb : string -> open_result;         (* open(path, 'rb') *)
  listdir : string -> option (list string) (* os.listdir; None: OSError *)
}.

(** Library functions that only compute text. *)
Record stdlib : Type := mkStdlib {
  unquote : string -> string;              (* urllib.parse.unquote *)
  urlsplit_path : string -> string;        (* urllib.parse.urlsplit(p).path *)
  url_add_slash : string -> string;        (* urlunsplit with path + '/' *)
  guess_type : string -> string;           (* SimpleHTTPRequestHandler.guess_type *)
  version_string : string;                 (* server_version + ' ' + sys_version *)
  formatdate : nat -> string;              (* email.utils.formatdate(t, usegmt=True) *)
  responses : nat -> option (string * string);
  error_page : nat -> string -> string -> string;
                                           (* error_message_format % {...} *)
  not_modified_since : string -> nat -> bool;
                                           (* the If-Modified-Since comparison *)
  listing_page : filesystem -> string -> string -> list string -> string;
                                           (* the HTML of list_directory *)
  filesystemencoding : string;             (* sys.getfilesystemencoding() *)
  repr : string -> string;                 (* '%r' % s *)
  int : string -> option Z                 (* int(s); None: ValueError *)
}.

(** The attributes of a request handler ([self]) that the code reads or
    writes. *)
Record handler : Type := mkHandler {
  command : string;
  path : string;
  request_version : string;
  headers : list (string * string);
  directory : string;
  headers_buffer : list string;
  wfile : list chunk;
  close_connection : bool;
  log : list log_entry;
  clock : nat                              (* time.time() while it answers *)
}.

Definition set_command (c : string) (h : handler) : handler :=
  mkHandler c (path h) (request_version h) (headers h) (directory h)
            (headers_buffer h) (wfile h) (close_connection h) (log h) (clock h).

Definition set_path (p : string) (h : handler) : handler :=
  mkHandler (command h) p (request_version h) (headers h) (directory h)
            (headers_buffer h) (wfile h) (close_connection h) (log h) (clock h).

Definition set_request_version (v : string) (h : handler) : handler :=
  mkHandler (command h) (path h) v (headers h) (directory h)
            (headers_buffer h) (wfile h) (close_connection h) (log h) (clock h).

Definition set_headers (hs : list (string * string)) (h : handler) : handler :=
  mkHandler (command h) (path h) (request_version h) hs (directory h)
            (headers_buffer h) (wfile h) (close_connection h) (log h) (clock h).

Definition set_headers_buffer (b : list string) (h : handler) : handler :=
  mkHandler (command h) (path h) (request_version h) (headers h) (directory h)
            b (wfile h) (close_connection h) (log h) (clock h).

Definition set_wfile (w : list chunk) (h : handler) : handler :=
  mkHandler (command h) (path h) (request_version h) (headers h) (directory h)
            (headers_buffer h) w (close_connection h) (log h) (clock h).

Definition set_close_connection (b : bool) (h : handler) : handler :=
  mkHandler (command h) (path h) (request_version h) (headers h) (directory h)
            (headers_buffer h) (wfile h) b (log h) (clock h).

Definition set_log (l : list log_entry) (h : handler) : handler :=
  mkHandler (command h) (path h) (request_version h) (headers h) (directory h)
            (headers_buffer h) (wfile h) (close_connection h) l (clock h).

(** [self.wfile.write(data)] *)
Definition write (c : chunk) (h : handler) : handler :=
  set_wfile (wfile h ++ [c])%list h.

(** The result of a method that may raise. *)
Inductive result (A : Type) : Type :=
| Ok (a : A) (h : handler)
| Raise (e : exn) (h : handler).
Arguments Ok {A} a h.
Arguments Raise {A} e h.

Definition state_of {A : Type} (r : result A) : handler :=
  match r with
  | Ok _ h => h
  | Raise _ h => h
  end.

(** [h.get(name, default)] on a message: header names compare without
    regard to case. *)
Definition headers_get (name default : string) (hs : list (string * string))
  : string :=
  match find (fun kv => Py.lower (fst kv) =? Py.lower name) hs with
  | Some kv => snd kv
  | None => default
  end.

(** What [http.client.parse_headers] makes of the lines after the request
    line: the headers, or one of its two exceptions with its text. *)
Inductive header_input : Type :=
| HeadersOk (hs : list (string * string))
| LineTooLong (err : string)
| TooManyHeaders (err : string).

(** What a connection brings: the bytes [rfile.readline(65537)] returns
    (decoded as ISO-8859-1, the line end included; empty when the peer has
    closed), the header lines, and what [time.time()] gives when the reply
    is made ([send_response] reads it once for the [Date] header, and a
    connection gets one reply). *)
Record connection : Type := mkConnection {
  raw_requestline : string;
  raw_headers : header_input;
  conn_time : nat
}.

(** ** http.server.BaseHTTPRequestHandler *)

Module BaseHTTPRequestHandler.

Definition protocol_version : string := "HTTP/1.0".

Definition default_request_version : string := "HTTP/0.9".

Definition is_09 (h : handler) : bool := request_version h =? "HTTP/0.9".

Definition log_request (code : nat) (h : handler) : handler :=
  set_log (log h ++ [LogRequest code])%list h.

Definition log_error (code : nat) (message : string) (h : handler) : handler :=
  set_log (log h ++ [LogError code message])%list h.

Section Methods.
Variable lib : stdlib.

Definition send_response_only (code : nat) (message : option string)
           (h : handler) : handler :=
  if is_09 h then h
  else
    let message :=
      match message with
      | Some m => m
      | None => match responses lib code with
                | Some (short, _) => short
                | None => ""
                end
      end in
    set_headers_buffer
      (headers_buffer h
       ++ [(protocol_version ++ " " ++ Py.str code ++ " " ++ message
            ++ Py.CRLF)%string])%list h.

(** [send_header]: the line is queued under the guard
    [if self.request_version != 'HTTP/0.9':]; the test of [Connection]
    comes after it, outside the guard. *)
Definition send_header (keyword value : string) (h : handler) : handler :=
  let h :=
    if is_09 h then h
    else set_headers_buffer
           (headers_buffer h
            ++ [(keyword ++ ": " ++ value ++ Py.CRLF)%string])%list h
  in
  if Py.lower keyword =? "connection" then
    if Py.lower value =? "close" then set_close_connection true h
    else if Py.lower value =? "keep-alive" then set_close_connection false h
    else h
  else h.

Definition flush_headers (h : handler) : handler :=
  set_headers_buffer [] (write (Head (headers_buffer h)) h).

(** [end_headers]: the blank line and [flush_headers], under the same
    guard. *)
Definition end_headers (h : handler) : handler :=
  if is_09 h then h
  else flush_headers
         (set_headers_buffer (headers_buffer h ++ [Py.CRLF])%list h).

(** [date_time_string(timestamp=None)]: the date of [timestamp], of
    [time.time()] without one. *)
Definition date_time_string (timestamp : option nat) (h : handler) : string :=
  formatdate lib match timestamp with
                 | Some t => t
                 | None => clock h
                 end.

Definition send_response (code : nat) (message : option string)
           (h : handler) : handler :=
  let h := log_request code h in
  let h := send_response_only code message h in
  let h := send_header "Server" (version_string lib) h in
  send_header "Date" (date_time_string None h) h.

(** Methods that call [self.end_headers()] take the method bound on
    [self], which a subclass may have overridden. *)
Variable self_end_headers : handler -> handler.

Definition send_error (code : nat) (message explain : option string)
           (h : handler) : handler :=
  let shortlong :=
    match responses lib code with
    | Some sl => sl
    | None => ("???", "???")
    end in
  let message := match message with Some m => m | None => fst shortlong end in
  let explain := match explain with Some e => e | None => snd shortlong end in
  let h := log_error code message h in
  let h := send_response code (Some message) h in
  let h := send_header "Connection" "close" h in
  let body :=
    if (200 <=? code)%nat
       && negb ((code =? 204)%nat || (code =? 205)%nat || (code =? 304)%nat)
    then Some (error_page lib code message explain)
    else None in
  let h :=
    match body with
    | Some b =>
        send_header "Content-Length" (Py.str (Py.len b))
          (send_header "Content-Type" "text/html;charset=utf-8" h)
    | None => h
    end in
  let h := self_end_headers h in
  match body with
  | Some b =>
      if negb (command h =? "HEAD") && Py.truthy b
      then write (Body b) h else h
  | None => h
  end.

(** The [try] block of [parse_request] on the last word of the line: the
    text after [HTTP/] and the two numbers, or [None] for the [ValueError]
    and [IndexError] it catches. *)
Definition version_number (version : string) : option (string * (Z * Z)) :=
  if negb (Py.startswith "HTTP/" version) then None
  else
    match Py.after "/" version with
    | None => None
    | Some base_version_number =>
        match Py.split "." base_version_number with
        | [major; minor] =>
            match int lib major with
            | None => None
            | Some ma =>
                match int lib minor with
                | None => None
                | Some mi => Some (base_version_number, (ma, mi))
                end
            end
        | _ => None
        end
    end.

(** [a >= b] on pairs of integers. *)
Definition pair_ge (a b : Z * Z) : bool :=
  (fst b <? fst a)%Z || ((fst a =? fst b)%Z && (snd b <=? snd a)%Z).

(** [handle_expect_100] *)
Definition handle_expect_100 (h : handler) : bool * handler :=
  (true, self_end_headers (send_response_only 100 None h)).

(** [parse_request]: the boolean is its result; when it is [False] the
    error reply has been sent.  [self.command = None] is written [""]: the
    one test made on it in that state is [!= 'HEAD']. *)
Definition parse_request (c : connection) (h : handler) : bool * handler :=
  let h := set_command "" h in
  let h := set_request_version default_request_version h in
  let h := set_close_connection true h in
  let requestline := Py.rstrip_chars [Py.CR; Py.LF] (raw_requestline c) in
  let words := Py.split_ws requestline in
  if (length words =? 0)%nat then (false, h)
  else
    (* if len(words) >= 3: ... ; inr: an error reply was sent *)
    let versioned : handler + handler :=
      if (3 <=? length words)%nat then
        let version := Py.last_word words in
        match version_number version with
        | None =>
            inr (send_error 400
                   (Some ("Bad request version (" ++ repr lib version ++ ")"))
                   None h)
        | Some (base_version_number, number) =>
            let h :=
              if pair_ge number (1, 1)%Z && Py.ge protocol_version "HTTP/1.1"
              then set_close_connection false h else h in
            if pair_ge number (2, 0)%Z then
              inr (send_error 505
                     (Some ("Invalid HTTP version (" ++ base_version_number ++ ")"))
                     None h)
            else inl (set_request_version version h)
        end
      else inl h in
    match versioned with
    | inr h => (false, h)
    | inl h =>
        if negb ((2 <=? length words) && (length words <=? 3))%nat then
          (false,
           send_error 400
             (Some ("Bad request syntax (" ++ repr lib requestline ++ ")"))
             None h)
        else
          let command := nth 0 words "" in
          let path := nth 1 words "" in
          let two := (length words =? 2)%nat in
          let h := if two then set_close_connection true h else h in
          if two && negb (command =? "GET") then
            (false,
             send_error 400
               (Some ("Bad HTTP/0.9 request type (" ++ repr lib command ++ ")"))
               None h)
          else
            let h := set_path path (set_command command h) in
            let h :=
              if Py.startswith "//" path
              then set_path ("/" ++ Py.lstrip "/" path) h else h in
            match raw_headers c with
            | LineTooLong err =>
                (false, send_error 431 (Some "Line too long") (Some err) h)
            | TooManyHeaders err =>
                (false, send_error 431 (Some "Too many headers") (Some err) h)
            | HeadersOk hs =>
                let h := set_headers hs h in
                let conntype := headers_get "Connection" "" hs in
                let h :=
                  if Py.lower conntype =? "close" then set_close_connection true h
                  else if (Py.lower conntype =? "keep-alive")
                          && Py.ge protocol_version "HTTP/1.1"
                  then set_close_connection false h
                  else h in
                let expect := headers_get "Expect" "" hs in
                if (Py.lower expect =? "100-continue")
                   && Py.ge protocol_version "HTTP/1.1"
                   && Py.ge (request_version h) "HTTP/1.1"
                then handle_expect_100 h
                else (true, h)
            end
    end.

(** A method [do_XXX] of a handler class. *)
Definition method : Type := filesystem -> handler -> result unit.

(** The end of [handle_one_request], from [mname = 'do_' + self.command]
    on: what it does once [parse_request] has returned [True] and filled in
    [command], [path], [request_version] and [headers].  [getattr name] is
    the attribute lookup on [self].  The lines before it are in [handle]
    below. *)
Definition handle_one_request (getattr : string -> option method)
           (fs : filesystem) (h : handler) : result unit :=
  let mname := "do_" ++ command h in
  match getattr mname with
  | None =>
      Ok tt (send_error 501
               (Some ("Unsupported method (" ++ repr lib (command h) ++ ")"))
               None h)
  | Some m => m fs h
  end.

(** [handle]: [self.close_connection = True], then [handle_one_request]
    from its first line: the request line is read, refused with 414 when it
    is longer than 65536 bytes, given up when it is empty, parsed, and the
    method is called as above.  The loop [while not self.close_connection]
    that follows in [handle] is left out: [close_connection] is [True] when
    [handle_one_request] is done (lemma [handle_closes] below), so the loop
    does not run.  The sockets of the handler have no timeout
    ([timeout = None]), so the [except TimeoutError] of [handle_one_request]
    has nothing to catch. *)
Definition handle (getattr : string -> option method)
           (fs : filesystem) (c : connection) (h : handler) : result unit :=
  let h := set_close_connection true h in
  if (65536 <? N.of_nat (Py.len (raw_requestline c)))%N then
    let h := set_command "" (set_request_version "" h) in
    Ok tt (send_error 414 None None h)
  else if negb (Py.truthy (raw_requestline c)) then
    Ok tt (set_close_connection true h)
  else
    match parse_request c h with
    | (false, h) => Ok tt h
    | (true, h) => handle_one_request getattr fs h
    end.

End Methods.

End BaseHTTPRequestHandler.

(** ** http.server.SimpleHTTPRequestHandler *)

Module SimpleHTTPRequestHandler.
Import BaseHTTPRequestHandler.

(** [name in self.headers] and [self.headers[name]]: header names compare
    without regard to case. *)
Definition get_header (name : string) (h : handler) : option string :=
  match find (fun kv => Py.lower (fst kv) =? Py.lower name) (headers h) with
  | Some kv => Some (snd kv)
  | None => None
  end.

Definition has_header (name : string) (h : handler) : bool :=
  match get_header name h with Some _ => true | None => false end.

(** The body of the loop of [translate_path]. *)
Definition add_word (p word : string) : string :=
  if Py.truthy (posixpath.dirname word) || (word =? ".") || (word =? "..")
  then p
  else posixpath.join p word.

Section Methods.
Variable lib : stdlib.
Variable self_end_headers : handler -> handler.

Definition translate_path (h : handler) (url : string) : string :=
  let p := Py.before "?" url in
  let p := Py.before "#" p in
  let trailing_slash := Py.endswith "/" (Py.rstrip_space p) in
  let p := unquote lib p in
  let p := posixpath.normpath p in
  let words := filter Py.truthy (Py.split "/" p) in
  let p := fold_left add_word words (directory h) in
  if trailing_slash then p ++ "/" else p.

Definition list_directory (fs : filesystem) (p : string) (h : handler)
  : result (option string) :=
  match listdir fs p with
  | None =>
      Ok None (send_error lib self_end_headers 404
                 (Some "No permission to list directory") None h)
  | Some list =>
      let encoded := listing_page lib fs (path h) p list in
      let h := send_response lib 200 None h in
      let h := send_header "Content-type"
                 ("text/html; charset=" ++ filesystemencoding lib) h in
      let h := send_header "Content-Length" (Py.str (Py.len encoded)) h in
      let h := self_end_headers h in
      Ok (Some encoded) h
  end.

(** [send_head] from [ctype = self.guess_type(path)] on. *)
Definition send_file (fs : filesystem) (p : string) (h : handler)
  : result (option string) :=
  let ctype := guess_type lib p in
  if Py.endswith "/" p then
    Ok None (send_error lib self_end_headers 404 (Some "File not found") None h)
  else
    match open_rb fs p with
    | OpenOSError =>
        Ok None (send_error lib self_end_headers 404 (Some "File not found")
                   None h)
    | OpenValueError => Raise ValueError h
    | Opened f =>
        let not_modified :=
          match get_header "If-Modified-Since" h with
          | Some ims =>
              negb (has_header "If-None-Match" h)
              && not_modified_since lib ims (st_mtime f)
          | None => false
          end in
        if not_modified then
          let h := send_response lib 304 None h in
          let h := self_end_headers h in
          Ok None h
        else
          let h := send_response lib 200 None h in
          let h := send_header "Content-type" ctype h in
          let h := send_header "Content-Length"
                     (Py.str (Py.len (content f))) h in
          let h := send_header "Last-Modified"
                     (date_time_string lib (Some (st_mtime f)) h) h in
          let h := self_end_headers h in
          Ok (Some (content f)) h
    end.

(** The result is the file object to copy, given by the bytes it holds. *)
Definition send_head (fs : filesystem) (h : handler) : result (option string) :=
  let p := translate_path h (path h) in
  if isdir fs p then
    if negb (Py.endswith "/" (urlsplit_path lib (path h))) then
      let h := send_response lib 301 None h in
      let h := send_header "Location" (url_add_slash lib (path h)) h in
      let h := send_header "Content-Length" "0" h in
      let h := self_end_headers h in
      Ok None h
    else if isfile fs (posixpath.join p "index.html") then
      send_file fs (posixpath.join p "index.html") h
    else if isfile fs (posixpath.join p "index.htm") then
      send_file fs (posixpath.join p "index.htm") h
    else list_directory fs p h
  else send_file fs p h.

(** [shutil.copyfileobj(source, self.wfile)] *)
Definition copyfile (source : string) (h : handler) : handler :=
  if Py.truthy source then write (Body source) h else h.

Definition do_GET (fs : filesystem) (h : handler) : result unit :=
  match send_head fs h with
  | Ok (Some f) h => Ok tt (copyfile f h)
  | Ok None h => Ok tt h
  | Raise e h => Raise e h
  end.

Definition do_HEAD (fs : filesystem) (h : handler) : result unit :=
  match send_head fs h with
  | Ok _ h => Ok tt h
  | Raise e h => Raise e h
  end.

(** Attribute lookup for the names [handle_one_request] asks for. *)
Definition getattr (name : string) : option method :=
  if name =? "do_GET" then Some do_GET
  else if name =? "do_HEAD" then Some do_HEAD
  else None.

End Methods.

End SimpleHTTPRequestHandler.

(** ** demo/test-server.py *)

Definition PORT : nat := 8000.

Module MyHTTPRequestHandler.

Section Methods.
Variable lib : stdlib.

(** Lines 12-17. *)
Definition end_headers (h : handler) : handler :=
  let h := BaseHTTPRequestHandler.send_header
             "Access-Control-Allow-Origin" "*" h in
  let h := BaseHTTPRequestHandler.send_header
             "Access-Control-Allow-Methods" "GET, POST, OPTIONS" h in
  let h := BaseHTTPRequestHandler.send_header
             "Access-Control-Allow-Headers" "Content-Type" h in
  BaseHTTPRequestHandler.end_headers h.

(** Lines 21-22: the assignment to [self.path]. *)
Definition rewrite_path (h : handler) : handler :=
  if path h =? "/" then set_path "/index.html" h else h.

(** Lines 19-23. *)
Definition do_GET (fs : filesystem) (h : handler) : result unit :=
  let h := rewrite_path h in
  SimpleHTTPRequestHandler.do_GET lib end_headers fs h.

(** Attribute lookup on an instance: the class's own [do_GET], then
    the base class. *)
Definition getattr (name : string) : option BaseHTTPRequestHandler.method :=
  if name =? "do_GET" then Some do_GET
  else SimpleHTTPRequestHandler.getattr lib end_headers name.

Definition handle_one_request (fs : filesystem) (h : handler) : result unit :=
  BaseHTTPRequestHandler.handle_one_request lib end_headers getattr fs h.

Definition parse_request (c : connection) (h : handler) : bool * handler :=
  BaseHTTPRequestHandler.parse_request lib end_headers c h.

Definition handle (fs : filesystem) (c : connection) (h : handler) : result unit :=
  BaseHTTPRequestHandler.handle lib end_headers getattr fs c h.

End Methods.

End MyHTTPRequestHandler.

(** ** The process and its surroundings *)

(** A request that [parse_request] has accepted, as it leaves it in
    [command], [path], [request_version] and [headers], and the reading of
    the clock while it is answered.  A request line of two words
    (["GET /x"]) has version ["HTTP/0.9"]. *)
Record request : Type := mkRequest {
  rq_command : string;
  rq_path : string;
  rq_version : string;
  rq_headers : list (string * string);
  rq_time : nat
}.

(** What the process does to the outside, in the order it happens. *)
Inductive effect : Type :=
| Chdir (d : string)                 (* os.chdir(d) *)
| Print (text : string)              (* text written to sys.stdout *)
| Bind (host : string) (port : nat)  (* socket.bind((host, port)) *)
| Listen                             (* socket.listen *)
| Served (h : handler)               (* a connection accepted and handled *)
| Traceback (e : exn)                (* a traceback written to sys.stderr *)
| Close.                             (* socket.close *)

Inductive socket_state : Type := Unbound | Listening | Closed.

Record world : Type := mkWorld {
  cwd : string;
  fs : filesystem;
  socket : socket_state;
  trace : list effect
}.

Definition record (e : effect) (w : world) : world :=
  mkWorld (cwd w) (fs w) (socket w) (trace w ++ [e])%list.

Definition set_socket (s : socket_state) (w : world) : world :=
  mkWorld (cwd w) (fs w) s (trace w).

(** [os.chdir(d)] *)
Definition chdir (d : string) (w : world) : world :=
  record (Chdir d) (mkWorld d (fs w) (socket w) (trace w)).

(** [print(s)] *)
Definition print (s : string) (w : world) : world :=
  record (Print (s ++ Py.NL)) w.

(** Everything written to [sys.stdout]. *)
Fixpoint stdout_of (t : list effect) : string :=
  match t with
  | [] => ""
  | Print s :: r => s ++ stdout_of r
  | _ :: r => stdout_of r
  end.

Definition stdout (w : world) : string := stdout_of (trace w).

(** The handlers of the connections served, oldest first. *)
Fixpoint served_of (t : list effect) : list handler :=
  match t with
  | [] => []
  | Served h :: r => h :: served_of r
  | _ :: r => served_of r
  end.

Definition served (w : world) : list handler := served_of (trace w).

(** What arrives while the server waits in [select]. *)
Inductive event : Type :=
| Connection (c : connection)
| Sigint.

(** The handler object when its constructor calls [handle]:
    [SimpleHTTPRequestHandler.__init__] takes [directory] from
    [os.getcwd()]; nothing is queued or written.  The attributes of the
    request do not exist yet; they are written [""]. *)
Definition fresh_handler (dir : string) (now : nat) : handler :=
  mkHandler "" "" "" [] dir [] [] true [] now.

(** The handler object when [parse_request] has returned [True] with
    request [r]: nothing is queued or written, and [close_connection] is
    [True] (the protocol version of the class is HTTP/1.0). *)
Definition new_handler (dir : string) (r : request) : handler :=
  mkHandler (rq_command r) (rq_path r) (rq_version r) (rq_headers r)
            dir [] [] true [] (rq_time r).

(** The request in a handler. *)
Definition request_of (h : handler) : request :=
  mkRequest (command h) (path h) (request_version h) (headers h) (clock h).

(** ** socketserver.TCPServer *)

Module TCPServer.

Inductive outcome : Type :=
| Waiting (w : world)            (* still in the loop of serve_forever *)
| Raised (e : exn) (w : world).  (* serve_forever left by an exception *)

Section Server.
(** [RequestHandlerClass(request, client_address, self)]: the handler is
    built and [handle] runs in its constructor. *)
Variable RequestHandlerClass : string -> filesystem -> connection -> result unit.

(** [__init__(server_address, RequestHandlerClass)]: [server_bind] and
    [server_activate]; [bind_ok] says whether [socket.bind] succeeds. *)
Definition init (bind_ok : bool) (host : string) (port : nat) (w : world)
  : world + exn * world :=
  let w := record (Bind host port) w in
  if bind_ok then inl (set_socket Listening (record Listen w))
  else inr (OSError, set_socket Closed (record Close w)).

Definition server_close (w : world) : world :=
  set_socket Closed (record Close w).

(** [_handle_request_noblock] *)
Definition handle_request_noblock (c : connection) (w : world)
  : option exn * world :=
  match RequestHandlerClass (cwd w) (fs w) c with
  | Ok _ h => (None, record (Served h) w)
  | Raise e h =>
      if is_Exception e
      then (None, record (Traceback e) (record (Served h) w))
      else (Some e, record (Served h) w)
  end.

(** [serve_forever] over the events that arrive. *)
Fixpoint serve_forever (events : list event) (w : world) : outcome :=
  match events with
  | [] => Waiting w
  | Sigint :: _ => Raised KeyboardInterrupt w
  | Connection c :: rest =>
      match handle_request_noblock c w with
      | (None, w) => serve_forever rest w
      | (Some e, w) => Raised e w
      end
  end.

End Server.

End TCPServer.

(** ** The script, lines 25-36 *)

Inductive process : Type :=
| Running (w : world)             (* waiting for the next connection *)
| Exited (code : nat) (w : world) (* the interpreter has exited *)
| Died (e : exn) (w : world).     (* uncaught exception: traceback, status 1 *)

Definition world_of (p : process) : world :=
  match p with
  | Running w => w
  | Exited _ w => w
  | Died _ w => w
  end.

Section Script.
Variable lib : stdlib.
(** [__file__] *)
Variable file : string.
(** Whether [socket.bind] succeeds (port free, permission granted). *)
Variable bind_ok : bool.

(** The constructor of the handler class: the handler object is built and
    [handle] runs. *)
Definition RequestHandlerClass (dir : string) (fs : filesystem) (c : connection)
  : result unit :=
  MyHTTPRequestHandler.handle lib fs c (fresh_handler dir (conn_time c)).

Definition main (events : list event) (w : world) : process :=
  let w := chdir (posixpath.dirname (posixpath.abspath (cwd w) file)) w in
  let w := print ("Starting server at http://localhost:" ++ Py.str PORT) w in
  let w := print "Press Ctrl+C to stop" w in
  match TCPServer.init bind_ok "" PORT w with
  | inr (e, w) => Died e (record (Traceback e) w)
  | inl w =>
      match TCPServer.serve_forever RequestHandlerClass events w with
      | TCPServer.Waiting w => Running w
      | TCPServer.Raised KeyboardInterrupt w =>
          let w := print (Py.NL ++ "Server stopped.") w in
          (* sys.exit(0) leaves the with block, which closes the server *)
          Exited 0 (TCPServer.server_close w)
      | TCPServer.Raised (SystemExit n) w => Exited n (TCPServer.server_close w)
      | TCPServer.Raised e w =>
          Died e (record (Traceback e) (TCPServer.server_close w))
      end
  end.

End Script.

(** ** The run of the server, event by event *)

(** The connections that arrive before the first Ctrl+C. *)
Fixpoint accepted (events : list event) : list connection :=
  match events with
  | Connection c :: rest => c :: accepted rest
  | _ => []
  end.

(** Whether a Ctrl+C arrives. *)
Fixpoint interrupted (events : list event) : bool :=
  match events with
  | [] => false
  | Sigint :: _ => true
  | Connection _ :: rest => interrupted rest
  end.

(** The world after the server has handled one connection, and after it has
    handled a list of them. *)
Definition serve_one (lib : stdlib) (w : world) (c : connection) : world :=
  snd (TCPServer.handle_request_noblock (RequestHandlerClass lib) c w).

Definition serve_all (lib : stdlib) (cs : list connection) (w : world) : world :=
  fold_left (serve_one lib) cs w.

(** ** Requests that [parse_request] accepts *)

(** What the handler does once [parse_request] has accepted the request as
    [r]: the call of the method [do_] + [command]. *)
Definition dispatched (lib : stdlib) (dir : string) (fs : filesystem)
           (r : request) : result unit :=
  MyHTTPRequestHandler.handle_one_request lib fs (new_handler dir r).

(** The request [parse_request] accepts on a connection: [None] when the
    line is too long or empty or [parse_request] returns [False]. *)
Definition parsed (lib : stdlib) (dir : string) (c : connection)
  : option request :=
  if (65536 <? N.of_nat (Py.len (raw_requestline c)))%N then None
  else if negb (Py.truthy (raw_requestline c)) then None
  else
    match MyHTTPRequestHandler.parse_request lib c
            (set_close_connection true (fresh_handler dir (conn_time c))) with
    | (true, h) => Some (request_of h)
    | (false, _) => None
    end.

(** The second word of the request line: the request target. *)
Definition request_target (c : connection) : string :=
  nth 1 (Py.split_ws (Py.rstrip_chars [Py.CR; Py.LF] (raw_requestline c))) "".

(** The world when the script reaches [socketserver.TCPServer(...)]. *)
Definition started (file : string) (w : world) : world :=
  print "Press Ctrl+C to stop"
    (print ("Starting server at http://localhost:" ++ Py.str PORT)
       (chdir (posixpath.dirname (posixpath.abspath (cwd w) file)) w)).

(** ** Reading a response *)

Definition header_line (keyword value : string) : string :=
  keyword ++ ": " ++ value ++ Py.CRLF.

(** The three lines [end_headers] of the script queues. *)
Definition cors_lines : list string :=
  [ header_line "Access-Control-Allow-Origin" "*";
    header_line "Access-Control-Allow-Methods" "GET, POST, OPTIONS";
    header_line "Access-Control-Allow-Headers" "Content-Type" ].

Definition has_line (l : string) (lines : list string) : bool :=
  existsb (String.eqb l) lines.

(** A header block holds the three lines. *)
Definition cors_in_block (lines : list string) : bool :=
  forallb (fun l => has_line l lines) cors_lines.

(** A response holds a header block with the three lines. *)
Definition has_cors (response : list chunk) : bool :=
  existsb (fun c => match c with
                    | Head lines => cors_in_block lines
                    | Body _ => false
                    end) response.

(** Every header block of a response holds the three lines. *)
Definition all_heads_cors (response : list chunk) : bool :=
  forallb (fun c => match c with
                    | Head lines => cors_in_block lines
                    | Body _ => true
                    end) response.

(** The status line of a response, when it has one. *)
Definition status_line (response : list chunk) : option string :=
  match response with
  | Head (l :: _) :: _ => Some l
  | _ => None
  end.

(** The bytes after the header block. *)
Fixpoint body_of (response : list chunk) : string :=
  match response with
  | [] => ""
  | Head _ :: r => body_of r
  | Body b :: r => b ++ body_of r
  end.

(** The response to a request [r] that [parse_request] has accepted. *)
Definition response (lib : stdlib) (dir : string) (fs : filesystem) (r : request)
  : list chunk :=
  wfile (state_of (dispatched lib dir fs r)).

(** The handler of a connection as the server keeps it: the state in which
    [handle] returned or raised. *)
Definition answered (lib : stdlib) (dir : string) (fs : filesystem)
           (c : connection) : handler :=
  state_of (RequestHandlerClass lib dir fs c).

(** The response a connection gets. *)
Definition reply (lib : stdlib) (dir : string) (fs : filesystem) (c : connection)
  : list chunk :=
  wfile (answered lib dir fs c).

(** ** Notions the statements use *)

Import BaseHTTPRequestHandler.

(** The status line [send_response_only] queues. *)
Definition status_text (lib : stdlib) (code : nat) (message : option string)
  : string :=
  protocol_version ++ " " ++ Py.str code ++ " "
  ++ match message with
     | Some m => m
     | None => match responses lib code with
               | Some (short, _) => short
               | None => ""
               end
     end
  ++ Py.CRLF.


(** [sends must h h']: going from [h] to [h'] leaves the request as it was
    and appends chunks to [wfile]; every header block among them holds the
    three lines; when [must] is set and the request is not HTTP/0.9, there is
    such a block. *)
Definition sends (must : bool) (h h' : handler) : Prop :=
  request_version h' = request_version h /\
  command h' = command h /\
  directory h' = directory h /\
  exists blk,
    wfile h' = (wfile h ++ blk)%list /\
    all_heads_cors blk = true /\
    (must = true -> is_09 h = false -> has_cors blk = true).

(** The same for a method that may raise: what it raises derives from
    [Exception], and nothing more than what [sends false] allows has
    happened. *)
Definition result_sends {A : Type} (must : bool) (h : handler) (r : result A)
  : Prop :=
  match r with
  | Ok _ h' => sends must h h'
  | Raise e h' => is_Exception e = true /\ sends false h h'
  end.

(** [h1] differs from [h] in the attributes of the request only: nothing
    was queued, written or logged, and the connection will be closed. *)
Definition untouched (h h1 : handler) : Prop :=
  directory h1 = directory h /\ headers_buffer h1 = headers_buffer h /\
  wfile h1 = wfile h /\ log h1 = log h /\ clock h1 = clock h /\
  close_connection h1 = true.

(** [self.path] as [parse_request] leaves it for the request target [t]:
    leading slashes are reduced to one when there are two or more. *)
Definition target_path (t : string) : string :=
  if Py.startswith "//" t then "/" ++ Py.lstrip "/" t else t.

(** The handler of an accepted request [r] when its method has returned or
    raised. *)
Definition handled (lib : stdlib) (dir : string) (fs : filesystem) (r : request)
  : handler :=
  state_of (dispatched lib dir fs r).

(** ** A small site to run the server on *)

Module Demo.

(** [int] on a string of ASCII digits. *)
Fixpoint digits_acc (acc : Z) (s : string) : option Z :=
  match s with
  | "" => Some acc
  | String a r =>
      let n := nat_of_ascii a in
      if ((48 <=? n) && (n <=? 57))%nat
      then digits_acc (10 * acc + Z.of_nat (n - 48))%Z r
      else None
  end.

Definition digits (s : string) : option Z :=
  match s with
  | "" => None
  | _ => digits_acc 0%Z s
  end.

Definition lib : stdlib :=
  mkStdlib (fun s => s) (fun s => Py.before "?" s) (fun s => s ++ "/")
           (fun p => if Py.endswith "l" p then "text/html"
                     else "application/octet-stream")
           "SimpleHTTP/0.6 Python/3.11.2"
           (fun t => "Wed, 04 Nov 2026 00:00:" ++ Py.str (10 + t) ++ " GMT")
           (fun code => if (code =? 404)%nat
                        then Some ("Not Found", "Nothing matches the given URI")
                        else if (code =? 200)%nat
                        then Some ("OK", "Request fulfilled, document follows")
                        else if (code =? 501)%nat
                        then Some ("Not Implemented",
                                   "Server does not support this operation")
                        else None)
           (fun code message explain =>
              "<p>Error code: " ++ Py.str code ++ "</p><p>Message: "
              ++ message ++ ".</p>")
           (fun _ _ => false)
           (fun _ _ p names => "<h1>Directory listing for " ++ p ++ "</h1>")
           "utf-8"
           (fun s => "'" ++ s ++ "'")
           digits.

Definition root : string := "/srv/demo".

Definition index_html : file := mkFile "<html>demo</html>" 0.

Definition fs : filesystem :=
  mkFs (fun p => (p =? "/srv/demo") || (p =? "/srv/demo/"))
       (fun p => p =? "/srv/demo/index.html")
       (fun p => if p =? "/srv/demo/index.html" then Opened index_html
                 else OpenOSError)
       (fun p => if (p =? "/srv/demo") || (p =? "/srv/demo/")
                 then Some ["index.html"] else None).

Definition get (url version : string) : request :=
  mkRequest "GET" url version [] 5.

(** A connection with the request line [line] and no header, answered at
    time 5. *)
Definition conn (line : string) : connection :=
  mkConnection (line ++ Py.CRLF) (HeadersOk []) 5.

Definition NUL : string := String "000"%char "".

(** The same directory without an index file; opening a name with a NUL
    character raises [ValueError]. *)
Definition bare_fs : filesystem :=
  mkFs (fun p => (p =? "/srv/demo") || (p =? "/srv/demo/"))
       (fun _ => false)
       (fun p => if Py.contains "000" p then OpenValueError else OpenOSError)
       (fun p => if (p =? "/srv/demo") || (p =? "/srv/demo/")
                 then Some ["style.css"] else None).

Definition world0 : world := mkWorld "/home/u" fs Unbound [].

Definition script : string := "/srv/demo/test-server.py".

End Demo.

(** ** The model at work *)

Example normpath_dot : posixpath.normpath "/." = "/".
Proof. reflexivity. Qed.

Example normpath_up : posixpath.normpath "/../etc/passwd" = "/etc/passwd".
Proof. reflexivity. Qed.

Example dirname_script :
  posixpath.dirname "/home/u/cytoquery/demo/test-server.py"
  = "/home/u/cytoquery/demo".
Proof. reflexivity. Qed.

Example str_port : Py.str 8000 = "8000".
Proof. reflexivity. Qed.

Example demo_get_root :
  wire (reply Demo.lib Demo.root Demo.fs (Demo.conn "GET / HTTP/1.1"))
  = "HTTP/1.0 200 OK" ++ Py.CRLF
    ++ "Server: SimpleHTTP/0.6 Python/3.11.2" ++ Py.CRLF
    ++ "Date: Wed, 04 Nov 2026 00:00:15 GMT" ++ Py.CRLF
    ++ "Content-type: text/html" ++ Py.CRLF
    ++ "Content-Length: 17" ++ Py.CRLF
    ++ "Last-Modified: Wed, 04 Nov 2026 00:00:10 GMT" ++ Py.CRLF
    ++ "Access-Control-Allow-Origin: *" ++ Py.CRLF
    ++ "Access-Control-Allow-Methods: GET, POST, OPTIONS" ++ Py.CRLF
    ++ "Access-Control-Allow-Headers: Content-Type" ++ Py.CRLF
    ++ Py.CRLF
    ++ "<html>demo</html>".
Proof. vm_compute. reflexivity. Qed.

Example demo_get_missing :
  status_line (reply Demo.lib Demo.root Demo.fs (Demo.conn "GET /nope.css HTTP/1.1"))
  = Some ("HTTP/1.0 404 File not found" ++ Py.CRLF).
Proof. vm_compute. reflexivity. Qed.

Example demo_get_simple_request :
  reply Demo.lib Demo.root Demo.fs (Demo.conn "GET /index.html")
  = [Body "<html>demo</html>"].
Proof. vm_compute. reflexivity. Qed.

Example demo_post :
  status_line (reply Demo.lib Demo.root Demo.fs (Demo.conn "POST / HTTP/1.1"))
  = Some ("HTTP/1.0 501 Unsupported method ('POST')" ++ Py.CRLF).
Proof. vm_compute. reflexivity. Qed.

Example demo_parsed :
  parsed Demo.lib Demo.root (Demo.conn "GET //a//b HTTP/1.1")
  = Some (mkRequest "GET" "/a//b" "HTTP/1.1" [] 5).
Proof. vm_compute. reflexivity. Qed.

Example demo_bad_version :
  wire (reply Demo.lib Demo.root Demo.fs (Demo.conn "GET / HTTP/2.0"))
  = "<p>Error code: 505</p><p>Message: Invalid HTTP version (2.0).</p>".
Proof. vm_compute. reflexivity. Qed.

Example demo_four_words :
  status_line (reply Demo.lib Demo.root Demo.fs (Demo.conn "GET / x HTTP/1.1"))
  = Some ("HTTP/1.0 400 Bad request syntax ('GET / x HTTP/1.1')" ++ Py.CRLF)
  /\ has_cors (reply Demo.lib Demo.root Demo.fs (Demo.conn "GET / x HTTP/1.1"))
     = true.
Proof. split; vm_compute; reflexivity. Qed.

Example demo_run :
  stdout (world_of (main Demo.lib Demo.script true
                         [Connection (Demo.conn "GET / HTTP/1.1"); Sigint]
                         Demo.world0))
  = "Starting server at http://localhost:8000" ++ Py.NL
    ++ "Press Ctrl+C to stop" ++ Py.NL
    ++ Py.NL ++ "Server stopped." ++ Py.NL.
Proof. vm_compute. reflexivity. Qed.

(** ** Header lines and blocks *)

Lemma has_line_In (l : string) (lines : list string) :
  has_line l lines = true <-> In l lines.
Proof.
  unfold has_line. rewrite existsb_exists. split.
  - intros [x [Hin Heq]]. apply String.eqb_eq in Heq. now subst.
  - intros Hin. exists l. split; [assumption | apply String.eqb_refl].
Qed.

Lemma cors_in_block_incl (lines : list string) :
  cors_in_block lines = true <-> incl cors_lines lines.
Proof.
  unfold cors_in_block. rewrite forallb_forall. unfold incl.
  split; intros H x Hx; apply has_line_In; apply H; exact Hx.
Qed.

Lemma cors_in_block_app (queued rest : list string) :
  cors_in_block (queued ++ cors_lines ++ rest)%list = true.
Proof.
  apply cors_in_block_incl. intros x Hx.
  apply in_or_app. right. apply in_or_app. now left.
Qed.

(** The version test only reads [request_version]. *)
Lemma is_09_false (h : handler) :
  request_version h <> "HTTP/0.9" -> is_09 h = false.
Proof. intros H. unfold is_09. now apply String.eqb_neq. Qed.

Lemma is_09_true (h : handler) :
  request_version h = "HTTP/0.9" -> is_09 h = true.
Proof. intros H. unfold is_09. now apply String.eqb_eq. Qed.

(** [send_header] for a keyword other than [Connection]. *)
Lemma send_header_plain (keyword value : string) (h : handler) :
  (Py.lower keyword =? "connection") = false ->
  send_header keyword value h =
  if is_09 h then h
  else set_headers_buffer (headers_buffer h ++ [header_line keyword value])%list h.
Proof.
  intros Hk. unfold send_header. rewrite Hk.
  destruct (is_09 h); reflexivity.
Qed.

Lemma send_header_queues (keyword value : string) (h : handler) :
  (Py.lower keyword =? "connection") = false ->
  is_09 h = false ->
  send_header keyword value h =
  set_headers_buffer (headers_buffer h ++ [header_line keyword value])%list h.
Proof. intros Hk H. rewrite send_header_plain by assumption. now rewrite H. Qed.

Lemma send_header_09 (keyword value : string) (h : handler) :
  (Py.lower keyword =? "connection") = false ->
  is_09 h = true ->
  send_header keyword value h = h.
Proof. intros Hk H. rewrite send_header_plain by assumption. now rewrite H. Qed.

Lemma is_09_set_headers_buffer (b : list string) (h : handler) :
  is_09 (set_headers_buffer b h) = is_09 h.
Proof. reflexivity. Qed.

(** [end_headers] of the script in one step: nothing for an HTTP/0.9
    request, otherwise one write of the queue, the three lines and the blank
    line. *)
Lemma end_headers_unfold (h : handler) :
  MyHTTPRequestHandler.end_headers h =
  if is_09 h then h
  else set_headers_buffer []
         (write (Head (headers_buffer h ++ cors_lines ++ [Py.CRLF])%list) h).
Proof.
  unfold MyHTTPRequestHandler.end_headers.
  destruct (is_09 h) eqn:E.
  - rewrite !(send_header_09 _ _ h) by (reflexivity || assumption).
    unfold end_headers. now rewrite E.
  - rewrite (send_header_queues _ _ h) by (reflexivity || assumption).
    rewrite (send_header_queues _ _ (set_headers_buffer _ h))
      by (reflexivity || assumption).
    rewrite (send_header_queues _ _ (set_headers_buffer _ (set_headers_buffer _ h)))
      by (reflexivity || assumption).
    unfold end_headers. rewrite !is_09_set_headers_buffer, E.
    destruct h as [c p v hs d b w cc lg].
    unfold flush_headers, write, set_headers_buffer, set_wfile, cors_lines.
    cbn [headers_buffer wfile command path request_version headers directory
         close_connection log].
    repeat (rewrite <- app_assoc; cbn [app]). reflexivity.
Qed.

(** ** What each library method does to the handler *)

Ltac unfold_setters :=
  unfold write, set_command, set_path, set_request_version, set_headers,
    set_headers_buffer, set_wfile, set_close_connection, set_log in *;
  cbn [command path request_version headers directory headers_buffer wfile
       close_connection log clock] in *.

Ltac field_of_send_header :=
  intros; unfold send_header, is_09;
  repeat match goal with
         | |- context [if ?c then _ else _] => destruct c
         end;
  unfold_setters; reflexivity.

Lemma send_header_wfile (keyword value : string) (h : handler) : wfile (send_header keyword value h) = wfile h.
Proof. field_of_send_header. Qed.

Lemma send_header_version (keyword value : string) (h : handler) :
  request_version (send_header keyword value h) = request_version h.
Proof. field_of_send_header. Qed.

Lemma send_header_command (keyword value : string) (h : handler) : command (send_header keyword value h) = command h.
Proof. field_of_send_header. Qed.

Lemma send_header_path (keyword value : string) (h : handler) : path (send_header keyword value h) = path h.
Proof. field_of_send_header. Qed.

Lemma send_header_headers (keyword value : string) (h : handler) : headers (send_header keyword value h) = headers h.
Proof. field_of_send_header. Qed.

Lemma send_header_directory (keyword value : string) (h : handler) :
  directory (send_header keyword value h) = directory h.
Proof. field_of_send_header. Qed.

Lemma send_header_log (keyword value : string) (h : handler) : log (send_header keyword value h) = log h.
Proof. field_of_send_header. Qed.

Lemma send_header_clock (keyword value : string) (h : handler) :
  clock (send_header keyword value h) = clock h.
Proof. field_of_send_header. Qed.

Lemma send_header_buffer (keyword value : string) (h : handler) :
  headers_buffer (send_header keyword value h) =
  if is_09 h then headers_buffer h
  else (headers_buffer h ++ [header_line keyword value])%list.
Proof.
  unfold send_header, is_09.
  destruct (request_version h =? "HTTP/0.9");
    repeat match goal with
           | |- context [if ?c then _ else _] => destruct c
           end;
    unfold_setters; reflexivity.
Qed.

Lemma send_header_is_09 (keyword value : string) (h : handler) : is_09 (send_header keyword value h) = is_09 h.
Proof. unfold is_09. now rewrite send_header_version. Qed.

Lemma send_response_only_unfold (lib : stdlib) (code : nat) (message : option string)
      (h : handler) :
  send_response_only lib code message h =
  if is_09 h then h
  else set_headers_buffer (headers_buffer h ++ [status_text lib code message])%list h.
Proof. reflexivity. Qed.

Lemma send_response_wfile (lib : stdlib) (code : nat) (message : option string)
      (h : handler) : wfile (send_response lib code message h) = wfile h.
Proof.
  unfold send_response. rewrite !send_header_wfile, send_response_only_unfold.
  unfold log_request, is_09. unfold_setters.
  now destruct (request_version h =? "HTTP/0.9").
Qed.

Lemma send_response_version (lib : stdlib) (code : nat) (message : option string)
      (h : handler) :
  request_version (send_response lib code message h) = request_version h.
Proof.
  unfold send_response. rewrite !send_header_version, send_response_only_unfold.
  unfold log_request, is_09. unfold_setters.
  now destruct (request_version h =? "HTTP/0.9").
Qed.

Lemma send_response_command (lib : stdlib) (code : nat) (message : option string)
      (h : handler) :
  command (send_response lib code message h) = command h.
Proof.
  unfold send_response. rewrite !send_header_command, send_response_only_unfold.
  unfold log_request, is_09. unfold_setters.
  now destruct (request_version h =? "HTTP/0.9").
Qed.

Lemma send_response_path (lib : stdlib) (code : nat) (message : option string)
      (h : handler) : path (send_response lib code message h) = path h.
Proof.
  unfold send_response. rewrite !send_header_path, send_response_only_unfold.
  unfold log_request, is_09. unfold_setters.
  now destruct (request_version h =? "HTTP/0.9").
Qed.

Lemma send_response_directory (lib : stdlib) (code : nat) (message : option string)
      (h : handler) :
  directory (send_response lib code message h) = directory h.
Proof.
  unfold send_response. rewrite !send_header_directory, send_response_only_unfold.
  unfold log_request, is_09. unfold_setters.
  now destruct (request_version h =? "HTTP/0.9").
Qed.

Lemma send_response_log (lib : stdlib) (code : nat) (message : option string)
      (h : handler) :
  log (send_response lib code message h) = (log h ++ [LogRequest code])%list.
Proof.
  unfold send_response. rewrite !send_header_log, send_response_only_unfold.
  unfold log_request, is_09. unfold_setters.
  now destruct (request_version h =? "HTTP/0.9").
Qed.

Lemma send_response_clock (lib : stdlib) (code : nat) (message : option string)
      (h : handler) : clock (send_response lib code message h) = clock h.
Proof.
  unfold send_response. rewrite !send_header_clock, send_response_only_unfold.
  unfold log_request, is_09. unfold_setters.
  now destruct (request_version h =? "HTTP/0.9").
Qed.

Lemma send_response_buffer (lib : stdlib) (code : nat) (message : option string)
      (h : handler) :
  headers_buffer (send_response lib code message h) =
  if is_09 h then headers_buffer h
  else (headers_buffer h
        ++ [status_text lib code message;
            header_line "Server" (version_string lib);
            header_line "Date" (date_time_string lib None h)])%list.
Proof.
  unfold send_response, date_time_string.
  rewrite !send_header_buffer, !send_header_is_09, !send_header_clock,
    send_response_only_unfold.
  unfold log_request, is_09. unfold_setters.
  destruct (request_version h =? "HTTP/0.9") eqn:E;
    unfold_setters; rewrite ?E; unfold_setters; rewrite ?E.
  - reflexivity.
  - now rewrite <- !app_assoc.
Qed.

Lemma send_response_is_09 (lib : stdlib) (code : nat) (message : option string)
      (h : handler) :
  is_09 (send_response lib code message h) = is_09 h.
Proof. unfold is_09. now rewrite send_response_version. Qed.

(** The script's [end_headers], field by field. *)
Lemma end_headers_wfile (h : handler) :
  wfile (MyHTTPRequestHandler.end_headers h) =
  if is_09 h then wfile h
  else (wfile h ++ [Head (headers_buffer h ++ cors_lines ++ [Py.CRLF])])%list.
Proof. rewrite end_headers_unfold. now destruct (is_09 h). Qed.

Lemma end_headers_version (h : handler) :
  request_version (MyHTTPRequestHandler.end_headers h) = request_version h.
Proof. rewrite end_headers_unfold. now destruct (is_09 h). Qed.

Lemma end_headers_command (h : handler) :
  command (MyHTTPRequestHandler.end_headers h) = command h.
Proof. rewrite end_headers_unfold. now destruct (is_09 h). Qed.

Lemma end_headers_path (h : handler) : path (MyHTTPRequestHandler.end_headers h) = path h.
Proof. rewrite end_headers_unfold. now destruct (is_09 h). Qed.

Lemma end_headers_directory (h : handler) :
  directory (MyHTTPRequestHandler.end_headers h) = directory h.
Proof. rewrite end_headers_unfold. now destruct (is_09 h). Qed.

Lemma end_headers_log (h : handler) : log (MyHTTPRequestHandler.end_headers h) = log h.
Proof. rewrite end_headers_unfold. now destruct (is_09 h). Qed.

Lemma end_headers_clock (h : handler) :
  clock (MyHTTPRequestHandler.end_headers h) = clock h.
Proof. rewrite end_headers_unfold. now destruct (is_09 h). Qed.

Lemma end_headers_is_09 (h : handler) :
  is_09 (MyHTTPRequestHandler.end_headers h) = is_09 h.
Proof. unfold is_09. now rewrite end_headers_version. Qed.

Create Rewrite HintDb handler.

#[local] Hint Rewrite
  send_header_wfile send_header_version send_header_command send_header_path
  send_header_headers send_header_directory send_header_log send_header_clock
  send_header_buffer send_header_is_09
  send_response_wfile send_response_version send_response_command
  send_response_path send_response_directory send_response_log
  send_response_clock send_response_buffer send_response_is_09
  end_headers_wfile end_headers_version end_headers_command end_headers_path
  end_headers_directory end_headers_log end_headers_clock
  end_headers_is_09 : handler.

(** ** What a method call adds to the response *)

Lemma all_heads_cors_app (a b : list chunk) :
  all_heads_cors (a ++ b)%list = all_heads_cors a && all_heads_cors b.
Proof. apply forallb_app. Qed.

Lemma has_cors_app (a b : list chunk) :
  has_cors (a ++ b)%list = has_cors a || has_cors b.
Proof. apply existsb_app. Qed.

Lemma sends_refl (h : handler) : sends false h h.
Proof.
  repeat split. exists []. rewrite app_nil_r. repeat split. discriminate.
Qed.

Lemma sends_trans (m1 m2 : bool) (h1 h2 h3 : handler) :
  sends m1 h1 h2 -> sends m2 h2 h3 -> sends (m1 || m2) h1 h3.
Proof.
  intros (Hv1 & Hc1 & Hd1 & b1 & Hw1 & Ha1 & Hm1)
         (Hv2 & Hc2 & Hd2 & b2 & Hw2 & Ha2 & Hm2).
  repeat split; try congruence.
  exists (b1 ++ b2)%list. repeat split.
  - rewrite Hw2, Hw1. now rewrite app_assoc.
  - rewrite all_heads_cors_app, Ha1, Ha2. reflexivity.
  - intros Hm H09. rewrite has_cors_app.
    apply orb_true_iff in Hm. apply orb_true_iff.
    destruct Hm as [Hm | Hm].
    + left. now apply Hm1.
    + right. apply Hm2; [assumption |]. unfold is_09 in *. now rewrite Hv1.
Qed.

Lemma sends_weaken (m : bool) (h h' : handler) : sends m h h' -> sends false h h'.
Proof.
  intros (Hv & Hc & Hd & b & Hw & Ha & _).
  repeat split; try assumption. exists b. repeat split; try assumption.
  discriminate.
Qed.

Lemma sends_send_header (keyword value : string) (h : handler) :
  sends false h (send_header keyword value h).
Proof.
  repeat split; autorewrite with handler; try reflexivity.
  exists []. rewrite app_nil_r. repeat split. discriminate.
Qed.

Lemma sends_send_response (lib : stdlib) (code : nat) (message : option string)
      (h : handler) :
  sends false h (send_response lib code message h).
Proof.
  repeat split; autorewrite with handler; try reflexivity.
  exists []. rewrite app_nil_r. repeat split. discriminate.
Qed.

Lemma sends_log_error (code : nat) (message : string) (h : handler) :
  sends false h (log_error code message h).
Proof.
  repeat split. exists []. cbn. rewrite app_nil_r. repeat split. discriminate.
Qed.

Lemma sends_write_body (b : string) (h : handler) :
  sends false h (write (Body b) h).
Proof.
  repeat split. exists [Body b]. repeat split. discriminate.
Qed.

Lemma sends_end_headers (h : handler) :
  sends true h (MyHTTPRequestHandler.end_headers h).
Proof.
  repeat split; autorewrite with handler; try reflexivity.
  destruct (is_09 h) eqn:E.
  - exists []. rewrite app_nil_r. repeat split. discriminate.
  - exists [Head (headers_buffer h ++ cors_lines ++ [Py.CRLF])%list].
    repeat split.
    + unfold all_heads_cors. cbn [forallb]. now rewrite cors_in_block_app.
    + intros _ _. unfold has_cors. cbn [existsb]. now rewrite cors_in_block_app.
Qed.

Lemma sends_send_error (lib : stdlib) (code : nat) (message explain : option string)
      (h : handler) :
  sends true h
    (send_error lib MyHTTPRequestHandler.end_headers code message explain h).
Proof.
  unfold send_error. cbv zeta.
  change true with (false || (false || (false || (false || (true || false))))).
  eapply sends_trans; [apply sends_log_error |].
  eapply sends_trans; [apply sends_send_response |].
  eapply sends_trans; [apply sends_send_header |].
  destruct ((200 <=? code)%nat && _).
  - eapply sends_trans.
    + change false with (false || false).
      eapply sends_trans; apply sends_send_header.
    + eapply sends_trans; [apply sends_end_headers |].
      destruct (negb _ && _); [apply sends_write_body | apply sends_refl].
  - eapply sends_trans; [apply sends_refl |].
    eapply sends_trans; [apply sends_end_headers | apply sends_refl].
Qed.

Section ScriptHandler.
Variable lib : stdlib.
Variable fs : filesystem.

Let eh := MyHTTPRequestHandler.end_headers.

Lemma sends_list_directory (p : string) (h : handler) :
  result_sends true h (SimpleHTTPRequestHandler.list_directory lib eh fs p h).
Proof.
  unfold SimpleHTTPRequestHandler.list_directory.
  destruct (listdir fs p) as [names |]; cbn [result_sends].
  - change true with (false || (false || (false || true))).
    eapply sends_trans; [apply sends_send_response |].
    eapply sends_trans; [apply sends_send_header |].
    eapply sends_trans; [apply sends_send_header |].
    apply sends_end_headers.
  - apply sends_send_error.
Qed.

Lemma sends_send_file (p : string) (h : handler) :
  result_sends true h (SimpleHTTPRequestHandler.send_file lib eh fs p h).
Proof.
  unfold SimpleHTTPRequestHandler.send_file. cbv zeta.
  destruct (Py.endswith "/" p); [apply sends_send_error |].
  destruct (open_rb fs p) as [f | |]; cbn [result_sends].
  - match goal with |- context [if ?c then _ else _] => destruct c end;
      cbn [result_sends].
    + change true with (false || true).
      eapply sends_trans; [apply sends_send_response | apply sends_end_headers].
    + change true with (false || (false || (false || (false || true)))).
      eapply sends_trans; [apply sends_send_response |].
      do 3 (eapply sends_trans; [apply sends_send_header |]).
      apply sends_end_headers.
  - apply sends_send_error.
  - split; [reflexivity | apply sends_refl].
Qed.

Lemma sends_send_head (h : handler) :
  result_sends true h (SimpleHTTPRequestHandler.send_head lib eh fs h).
Proof.
  unfold SimpleHTTPRequestHandler.send_head. cbv zeta.
  destruct (isdir fs _); [| apply sends_send_file].
  destruct (negb _); cbn [result_sends].
  - change true with (false || (false || (false || true))).
    eapply sends_trans; [apply sends_send_response |].
    do 2 (eapply sends_trans; [apply sends_send_header |]).
    apply sends_end_headers.
  - destruct (isfile fs _); [apply sends_send_file |].
    destruct (isfile fs _); [apply sends_send_file |].
    apply sends_list_directory.
Qed.

Lemma sends_base_do_GET (h : handler) :
  result_sends true h (SimpleHTTPRequestHandler.do_GET lib eh fs h).
Proof.
  unfold SimpleHTTPRequestHandler.do_GET.
  pose proof (sends_send_head h) as H.
  destruct (SimpleHTTPRequestHandler.send_head lib eh fs h) as [[f |] h' | e h'];
    cbn [result_sends] in *; try assumption.
  unfold SimpleHTTPRequestHandler.copyfile.
  destruct (Py.truthy f); [| assumption].
  change true with (true || false).
  eapply sends_trans; [eassumption | apply sends_write_body].
Qed.

Lemma sends_do_HEAD (h : handler) :
  result_sends true h (SimpleHTTPRequestHandler.do_HEAD lib eh fs h).
Proof.
  unfold SimpleHTTPRequestHandler.do_HEAD.
  pose proof (sends_send_head h) as H.
  destruct (SimpleHTTPRequestHandler.send_head lib eh fs h) as [f h' | e h'];
    cbn [result_sends] in *; assumption.
Qed.

Lemma sends_rewrite_path (h : handler) :
  sends false h (MyHTTPRequestHandler.rewrite_path h).
Proof.
  unfold MyHTTPRequestHandler.rewrite_path.
  destruct (path h =? "/"); [| apply sends_refl].
  repeat split. exists []. cbn. rewrite app_nil_r. repeat split. discriminate.
Qed.

Lemma result_sends_after {A : Type} (m : bool) (h h1 : handler) (r : result A) :
  sends false h h1 -> result_sends m h1 r -> result_sends m h r.
Proof.
  intros H1 H2. destruct r as [a h' | e h']; cbn [result_sends] in *.
  - change m with (false || m). eapply sends_trans; eassumption.
  - destruct H2 as [He H2]. split; [exact He |].
    change false with (false || false). eapply sends_trans; eassumption.
Qed.

Lemma sends_do_GET (h : handler) :
  result_sends true h (MyHTTPRequestHandler.do_GET lib fs h).
Proof.
  unfold MyHTTPRequestHandler.do_GET. cbv zeta.
  eapply result_sends_after; [apply sends_rewrite_path | apply sends_base_do_GET].
Qed.

Lemma sends_handle_one_request (h : handler) :
  result_sends true h (MyHTTPRequestHandler.handle_one_request lib fs h).
Proof.
  unfold MyHTTPRequestHandler.handle_one_request, handle_one_request,
    MyHTTPRequestHandler.getattr, SimpleHTTPRequestHandler.getattr.
  cbv zeta.
  repeat match goal with
         | |- context [if ?c then _ else _] => destruct c
         end;
    first [ apply sends_do_GET | apply sends_base_do_GET | apply sends_do_HEAD
          | cbn [result_sends]; apply sends_send_error ].
Qed.

End ScriptHandler.

(** ** What [parse_request] does with a request line *)

(** The class speaks HTTP/1.0, so no test on [protocol_version >= "HTTP/1.1"]
    holds: connections are not kept and no [100 Continue] is sent. *)
Lemma protocol_is_10 : Py.ge protocol_version "HTTP/1.1" = false.
Proof. reflexivity. Qed.

Ltac untouched_now :=
  repeat match goal with
         | |- context [if ?c then _ else _] => destruct c
         end;
  unfold untouched; unfold_setters; repeat split; reflexivity.

(** [parse_request] case by case: an empty line, an error reply, or a
    request accepted. *)
Lemma parse_request_cases (lib : stdlib) (c : connection) (h : handler) :
  let line := Py.rstrip_chars [Py.CR; Py.LF] (raw_requestline c) in
  let words := Py.split_ws line in
  let res := MyHTTPRequestHandler.parse_request lib c h in
  (words = [] /\ fst res = false /\ untouched h (snd res)
   /\ request_version (snd res) = "HTTP/0.9")
  \/ (exists (code : nat) (m : string) (ex : option string) (h1 : handler),
        words <> [] /\
        res = (false, send_error lib MyHTTPRequestHandler.end_headers
                        code (Some m) ex h1)
        /\ untouched h h1
        /\ (request_version h1 = "HTTP/0.9"
            \/ request_version h1 = Py.last_word words))
  \/ (exists (hs : list (string * string)) (h1 : handler),
        res = (true, h1) /\ untouched h h1
        /\ raw_headers c = HeadersOk hs
        /\ headers h1 = hs
        /\ command h1 = nth 0 words ""
        /\ path h1 = target_path (nth 1 words "")
        /\ ((length words = 2 /\ command h1 = "GET"
             /\ request_version h1 = "HTTP/0.9")
            \/ (length words = 3
                /\ request_version h1 = Py.last_word words
                /\ exists b n, version_number lib (Py.last_word words) = Some (b, n)
                               /\ pair_ge n (2, 0)%Z = false))).
Proof.
  intros line words res. subst res.
  unfold MyHTTPRequestHandler.parse_request, parse_request.
  fold line. fold words.
  set (h0 := set_close_connection true (set_request_version _ _)).
  assert (U0 : untouched h h0) by untouched_now.
  assert (V0 : request_version h0 = "HTTP/0.9") by reflexivity.
  clearbody h0. cbv zeta. rewrite !protocol_is_10.
  destruct (length words =? 0)%nat eqn:L0.
  { left. apply Nat.eqb_eq in L0. apply length_zero_iff_nil in L0.
    repeat split; try assumption; apply U0. }
  right.
  assert (Hne : words <> []).
  { intros E. rewrite E in L0. discriminate. }
  destruct (3 <=? length words)%nat eqn:L3.
  - destruct (version_number lib (Py.last_word words)) as [[b n] |] eqn:Vn.
    2:{ left. eexists 400, _, None, h0.
        split; [assumption |]. split; [reflexivity |]. split; [exact U0 | now left]. }
    rewrite andb_false_r.
    destruct (pair_ge n (2, 0)%Z) eqn:P2.
    { left. eexists 505, _, None, h0.
      split; [assumption |]. split; [reflexivity |]. split; [exact U0 | now left]. }
    set (h2 := set_request_version _ h0).
    assert (U2 : untouched h h2).
    { destruct U0 as (? & ? & ? & ? & ? & ?). repeat split; assumption. }
    assert (V2 : request_version h2 = Py.last_word words) by reflexivity.
    clearbody h2.
    destruct (length words <=? 3)%nat eqn:L3'.
    2:{ left. replace (2 <=? length words)%nat with true
          by (symmetry; apply Nat.leb_le; apply Nat.leb_le in L3; lia).
        cbn [andb negb].
        eexists 400, _, None, h2.
        split; [assumption |]. split; [reflexivity |]. split; [exact U2 | now right]. }
    assert (L : length words = 3).
    { apply Nat.leb_le in L3, L3'. lia. }
    rewrite L. cbn [Nat.leb Nat.eqb andb negb].
    destruct (raw_headers c) as [hs | err | err].
    + right. rewrite !andb_false_r. cbn [andb].
      eexists hs, _. split; [reflexivity |].
      destruct U2 as (? & ? & ? & ? & ? & ?).
      destruct (Py.startswith "//" (nth 1 words "")) eqn:Sl;
        destruct (_ =? "close");
        (split; [repeat split; assumption |]);
        (split; [reflexivity |]); (split; [reflexivity |]);
        (split; [reflexivity |]);
        (split; [unfold target_path; rewrite Sl; reflexivity |]);
        right; (split; [reflexivity |]); (split; [exact V2 |]);
        exists b, n; split; reflexivity || assumption.
    + left. eexists 431, _, (Some err), _. split; [assumption |].
      split; [reflexivity |].
      destruct U2 as (? & ? & ? & ? & ? & ?).
      destruct (Py.startswith "//" (nth 1 words ""));
        (split; [repeat split; assumption | right; exact V2]).
    + left. eexists 431, _, (Some err), _. split; [assumption |].
      split; [reflexivity |].
      destruct U2 as (? & ? & ? & ? & ? & ?).
      destruct (Py.startswith "//" (nth 1 words ""));
        (split; [repeat split; assumption | right; exact V2]).
  - destruct (2 <=? length words)%nat eqn:L2.
    2:{ left. cbn [andb negb]. eexists 400, _, None, h0.
        split; [assumption |]. split; [reflexivity |]. split; [exact U0 | now left]. }
    assert (L : length words = 2).
    { apply Nat.leb_le in L2. apply Nat.leb_gt in L3. lia. }
    rewrite L. cbn [Nat.leb Nat.eqb andb negb].
    destruct U0 as (? & ? & ? & ? & ? & ?).
    destruct (nth 0 words "" =? "GET") eqn:G; cbn [negb].
    2:{ left. eexists 400, _, None, _. split; [assumption |].
        split; [reflexivity |]. split; [repeat split; assumption | now left]. }
    apply String.eqb_eq in G.
    destruct (raw_headers c) as [hs | err | err].
    + right. rewrite !andb_false_r. cbn [andb].
      eexists hs, _. split; [reflexivity |].
      destruct (Py.startswith "//" (nth 1 words "")) eqn:Sl;
        destruct (_ =? "close");
        (split; [repeat split; assumption |]);
        (split; [reflexivity |]); (split; [reflexivity |]);
        (split; [reflexivity |]);
        (split; [unfold target_path; rewrite Sl; reflexivity |]);
        left; (split; [reflexivity |]); (split; [exact G | exact V0]).
    + left. eexists 431, _, (Some err), _. split; [assumption |].
      split; [reflexivity |].
      destruct (Py.startswith "//" (nth 1 words ""));
        (split; [repeat split; assumption | left; exact V0]).
    + left. eexists 431, _, (Some err), _. split; [assumption |].
      split; [reflexivity |].
      destruct (Py.startswith "//" (nth 1 words ""));
        (split; [repeat split; assumption | left; exact V0]).
Qed.

Lemma untouched_fresh (dir : string) (t : nat) (h1 : handler) :
  untouched (set_close_connection true (fresh_handler dir t)) h1 ->
  h1 = new_handler dir (request_of h1) /\ clock h1 = t.
Proof.
  intros (Hd & Hb & Hw & Hl & Hc & Hcc).
  destruct h1 as [cm p v hs d b w cc lg ck].
  cbn in Hd, Hb, Hw, Hl, Hc, Hcc. subst. split; reflexivity.
Qed.

Lemma parsed_accepts (lib : stdlib) (dir : string) (c : connection) (r : request) :
  parsed lib dir c = Some r ->
  (65536 <? N.of_nat (Py.len (raw_requestline c)))%N = false
  /\ Py.truthy (raw_requestline c) = true
  /\ MyHTTPRequestHandler.parse_request lib c
       (set_close_connection true (fresh_handler dir (conn_time c)))
     = (true, new_handler dir r).
Proof.
  unfold parsed. intros H.
  destruct (65536 <? _)%N; [discriminate |].
  destruct (Py.truthy (raw_requestline c)); [| discriminate].
  cbn [negb] in H. split; [reflexivity |]. split; [reflexivity |].
  pose proof (parse_request_cases lib c
                (set_close_connection true (fresh_handler dir (conn_time c))))
    as Hc.
  cbv zeta in Hc.
  destruct (MyHTTPRequestHandler.parse_request lib c _) as [[] h1];
    [| discriminate].
  injection H as <-.
  destruct Hc as [(_ & Hf & _) | [(? & ? & ? & ? & _ & Hf & _) | (hs & h2 & E & U & _)]];
    try discriminate.
  injection E as <-. apply untouched_fresh in U. destruct U as [U _].
  now rewrite <- U.
Qed.

(** A connection whose request [parse_request] accepts is answered by the
    method of the request. *)
Lemma handle_parsed (lib : stdlib) (dir : string) (fs : filesystem)
      (c : connection) (r : request) :
  parsed lib dir c = Some r ->
  RequestHandlerClass lib dir fs c = dispatched lib dir fs r.
Proof.
  intros H. apply parsed_accepts in H. destruct H as (Hl & Ht & Hp).
  unfold RequestHandlerClass, MyHTTPRequestHandler.handle, handle, dispatched.
  cbv zeta. rewrite Hl, Ht. cbn [negb].
  unfold MyHTTPRequestHandler.parse_request in Hp. rewrite Hp. reflexivity.
Qed.

Lemma parsed_spec (lib : stdlib) (dir : string) (c : connection) (r : request) :
  parsed lib dir c = Some r ->
  let words := Py.split_ws (Py.rstrip_chars [Py.CR; Py.LF] (raw_requestline c)) in
  raw_headers c = HeadersOk (rq_headers r)
  /\ rq_time r = conn_time c
  /\ rq_command r = nth 0 words ""
  /\ rq_path r = target_path (request_target c)
  /\ ((length words = 2 /\ rq_command r = "GET" /\ rq_version r = "HTTP/0.9")
      \/ (length words = 3
          /\ rq_version r = Py.last_word words
          /\ exists b n, version_number lib (Py.last_word words) = Some (b, n)
                         /\ pair_ge n (2, 0)%Z = false)).
Proof.
  intros H words. apply parsed_accepts in H. destruct H as (_ & _ & Hp).
  pose proof (parse_request_cases lib c
                (set_close_connection true (fresh_handler dir (conn_time c))))
    as Hc.
  cbv zeta in Hc. fold words in Hc. rewrite Hp in Hc.
  destruct Hc as [(_ & Hf & _) | [(? & ? & ? & ? & _ & Hf & _) | (hs & h2 & E & U & Hh & Hhs & Hcm & Hpa & Hv)]];
    try discriminate.
  injection E as <-.
  cbn [new_handler headers command path request_version] in *.
  split; [now rewrite Hhs |].
  split; [destruct U as (_ & _ & _ & _ & U & _); exact U |].
  split; [exact Hcm |]. split; [exact Hpa |]. exact Hv.
Qed.

Lemma sends_from_empty (m : bool) (h1 h' : handler) (dir : string) :
  sends m h1 h' -> wfile h1 = [] -> directory h1 = dir ->
  directory h' = dir /\ all_heads_cors (wfile h') = true
  /\ (m = true -> request_version h' <> "HTTP/0.9" -> has_cors (wfile h') = true).
Proof.
  intros (Hv & _ & Hd & blk & Hw & Hall & Hhas) Hw1 Hd1.
  rewrite Hw1 in Hw. cbn [app] in Hw. rewrite Hw.
  split; [congruence |]. split; [exact Hall |].
  intros Hm Hne. apply Hhas; [exact Hm |]. apply is_09_false. now rewrite <- Hv.
Qed.

(** What every connection gets: the handler keeps its directory, every
    header block it writes holds the three lines, an exception it lets out
    derives from [Exception], and when it returns after a request line with
    [request_version] other than HTTP/0.9 it has written such a block. *)
Lemma handle_replies (lib : stdlib) (dir : string) (fs : filesystem)
      (c : connection) :
  directory (state_of (RequestHandlerClass lib dir fs c)) = dir
  /\ all_heads_cors (wfile (state_of (RequestHandlerClass lib dir fs c))) = true
  /\ match RequestHandlerClass lib dir fs c with
     | Ok _ h =>
         Py.truthy (raw_requestline c) = true ->
         request_version h <> "HTTP/0.9" -> has_cors (wfile h) = true
     | Raise e _ => is_Exception e = true
     end.
Proof.
  unfold RequestHandlerClass, MyHTTPRequestHandler.handle, handle. cbv zeta.
  set (h0 := set_close_connection true (fresh_handler dir (conn_time c))).
  destruct (65536 <? _)%N.
  { cbn [state_of].
    pose proof (sends_send_error lib 414 None None
                  (set_command "" (set_request_version "" h0))) as S.
    apply (sends_from_empty _ _ _ dir) in S; [| reflexivity | reflexivity].
    destruct S as (Sd & Sa & Sh). split; [exact Sd |]. split; [exact Sa |].
    intros _. now apply Sh. }
  destruct (Py.truthy (raw_requestline c)); cbn [negb].
  2:{ cbn [state_of]. repeat split. discriminate. }
  pose proof (parse_request_cases lib c h0) as Hc. cbv zeta in Hc.
  fold (MyHTTPRequestHandler.parse_request lib c h0).
  destruct (MyHTTPRequestHandler.parse_request lib c h0) as [ok h1].
  cbn [fst snd] in Hc.
  destruct Hc as [(_ & -> & U & V)
                 | [(code & m & ex & h2 & _ & E & U & _) | (hs & h2 & E & U & _)]].
  - cbn [state_of]. destruct U as (Ud & _ & Uw & _).
    rewrite Uw, Ud. repeat split. intros _ Hne. now elim Hne.
  - injection E as -> ->. cbn [state_of].
    pose proof (sends_send_error lib code (Some m) ex h2) as S.
    destruct U as (Ud & _ & Uw & _).
    apply (sends_from_empty _ _ _ dir) in S; [| exact Uw | exact Ud].
    destruct S as (Sd & Sa & Sh). split; [exact Sd |]. split; [exact Sa |].
    intros _. now apply Sh.
  - injection E as -> ->.
    fold (MyHTTPRequestHandler.handle_one_request lib fs h2).
    pose proof (sends_handle_one_request lib fs h2) as S.
    destruct U as (Ud & _ & Uw & _).
    destruct (MyHTTPRequestHandler.handle_one_request lib fs h2) as [[] h3 | e h3];
      cbn [result_sends state_of] in *.
    + apply (sends_from_empty _ _ _ dir) in S; [| exact Uw | exact Ud].
      destruct S as (Sd & Sa & Sh). split; [exact Sd |]. split; [exact Sa |].
      intros _. now apply Sh.
    + destruct S as [He S].
      apply (sends_from_empty _ _ _ dir) in S; [| exact Uw | exact Ud].
      destruct S as (Sd & Sa & _). split; [exact Sd |]. split; [exact Sa |].
      exact He.
Qed.

(** ** One request for each connection *)

Lemma send_header_close (keyword value : string) (h : handler) :
  (Py.lower keyword =? "connection") && (Py.lower value =? "keep-alive") = false ->
  close_connection h = true ->
  close_connection (send_header keyword value h) = true.
Proof.
  intros Hk Hc. unfold send_header, is_09.
  destruct (Py.lower keyword =? "connection"); cbn [andb] in Hk.
  - rewrite Hk. destruct (Py.lower value =? "close");
      destruct (request_version h =? "HTTP/0.9"); unfold_setters;
      reflexivity || exact Hc.
  - destruct (request_version h =? "HTTP/0.9"); unfold_setters; exact Hc.
Qed.

Lemma end_headers_close (h : handler) :
  close_connection h = true ->
  close_connection (MyHTTPRequestHandler.end_headers h) = true.
Proof.
  intros Hc. rewrite end_headers_unfold. destruct (is_09 h); [exact Hc |].
  unfold_setters. exact Hc.
Qed.

Lemma send_response_close (lib : stdlib) (code : nat) (message : option string)
      (h : handler) :
  close_connection h = true ->
  close_connection (send_response lib code message h) = true.
Proof.
  intros Hc. unfold send_response. cbv zeta.
  do 2 (apply send_header_close; [reflexivity |]).
  rewrite send_response_only_unfold. unfold log_request, is_09. unfold_setters.
  destruct (request_version h =? "HTTP/0.9"); unfold_setters; exact Hc.
Qed.

Lemma send_header_connection_close (h : handler) :
  close_connection (send_header "Connection" "close" h) = true.
Proof.
  unfold send_header, is_09.
  change (Py.lower "Connection" =? "connection") with true.
  change (Py.lower "close" =? "close") with true. cbv iota.
  destruct (request_version h =? "HTTP/0.9"); reflexivity.
Qed.

Lemma write_close (c : chunk) (h : handler) :
  close_connection (write c h) = close_connection h.
Proof. reflexivity. Qed.

Ltac closes :=
  repeat match goal with
         | |- close_connection (write _ _) = true => rewrite write_close
         | |- close_connection ?x = true =>
             is_var x; assumption
         | |- close_connection (send_header "Connection" "close" _) = true =>
             apply send_header_connection_close
         | |- close_connection (send_header _ _ _) = true =>
             apply send_header_close; [reflexivity |]
         | |- close_connection (MyHTTPRequestHandler.end_headers _) = true =>
             apply end_headers_close
         | |- close_connection (send_response _ _ _ _) = true =>
             apply send_response_close
         end.

Lemma send_error_close (lib : stdlib) (code : nat) (message explain : option string)
      (h : handler) :
  close_connection
    (send_error lib MyHTTPRequestHandler.end_headers code message explain h)
  = true.
Proof.
  unfold send_error. cbv zeta.
  destruct ((200 <=? code)%nat && _).
  - match goal with
    | |- context [if ?b then _ else _] => destruct b
    end; closes.
  - closes.
Qed.

Section Closes.
Variable lib : stdlib.
Variable fs : filesystem.

Let eh := MyHTTPRequestHandler.end_headers.

Lemma send_head_close (h : handler) :
  close_connection h = true ->
  close_connection (state_of (SimpleHTTPRequestHandler.send_head lib eh fs h))
  = true.
Proof.
  intros Hc.
  assert (Hfile : forall p,
             close_connection
               (state_of (SimpleHTTPRequestHandler.send_file lib eh fs p h))
             = true).
  { intros p. unfold SimpleHTTPRequestHandler.send_file. cbv zeta.
    destruct (Py.endswith "/" p); [apply send_error_close |].
    destruct (open_rb fs p) as [f | |];
      [| apply send_error_close | exact Hc].
    match goal with |- context [if ?b then _ else _] => destruct b end;
      cbn [state_of]; unfold eh; closes. }
  unfold SimpleHTTPRequestHandler.send_head. cbv zeta.
  destruct (isdir fs _); [| apply Hfile].
  destruct (negb _); [cbn [state_of]; unfold eh; closes |].
  destruct (isfile fs _); [apply Hfile |].
  destruct (isfile fs _); [apply Hfile |].
  unfold SimpleHTTPRequestHandler.list_directory.
  destruct (listdir fs _); cbn [state_of];
    [unfold eh; closes | apply send_error_close].
Qed.

Lemma handle_one_request_close (h : handler) :
  close_connection h = true ->
  close_connection (state_of (MyHTTPRequestHandler.handle_one_request lib fs h))
  = true.
Proof.
  intros Hc.
  assert (Hr : close_connection (MyHTTPRequestHandler.rewrite_path h) = true).
  { unfold MyHTTPRequestHandler.rewrite_path.
    destruct (path h =? "/"); exact Hc. }
  assert (Hget : forall h1, close_connection h1 = true ->
             close_connection
               (state_of (SimpleHTTPRequestHandler.do_GET lib eh fs h1)) = true).
  { intros h1 H1. unfold SimpleHTTPRequestHandler.do_GET.
    pose proof (send_head_close h1 H1) as H.
    destruct (SimpleHTTPRequestHandler.send_head lib eh fs h1) as [[f |] h2 | e h2];
      cbn [state_of] in *; try exact H.
    unfold SimpleHTTPRequestHandler.copyfile.
    destruct (Py.truthy f); [rewrite write_close |]; exact H. }
  unfold MyHTTPRequestHandler.handle_one_request, handle_one_request,
    MyHTTPRequestHandler.getattr, SimpleHTTPRequestHandler.getattr.
  cbv zeta.
  destruct ("do_" ++ command h =? "do_GET").
  - unfold MyHTTPRequestHandler.do_GET. cbv zeta. now apply Hget.
  - destruct ("do_" ++ command h =? "do_HEAD").
    + unfold SimpleHTTPRequestHandler.do_HEAD.
      pose proof (send_head_close h Hc) as H. unfold eh in H.
      destruct (SimpleHTTPRequestHandler.send_head lib _ fs h) as [f h2 | e h2];
        exact H.
    + apply send_error_close.
Qed.

(** [handle] leaves [close_connection] set: the loop
    [while not self.close_connection] of [handle] does not run, and every
    connection is one request. *)
Lemma handle_closes (dir : string) (c : connection) :
  close_connection (answered lib dir fs c) = true.
Proof.
  unfold answered, RequestHandlerClass, MyHTTPRequestHandler.handle, handle.
  cbv zeta.
  set (h0 := set_close_connection true (fresh_handler dir (conn_time c))).
  destruct (65536 <? _)%N; [apply send_error_close |].
  destruct (Py.truthy (raw_requestline c)); cbn [negb]; [| reflexivity].
  pose proof (parse_request_cases lib c h0) as Hc. cbv zeta in Hc.
  fold (MyHTTPRequestHandler.parse_request lib c h0).
  destruct (MyHTTPRequestHandler.parse_request lib c h0) as [ok h1].
  cbn [fst snd] in Hc.
  destruct Hc as [(_ & -> & U & V)
                 | [(code & m & ex & h2 & _ & E & U & _) | (hs & h2 & E & U & _)]].
  - cbn [state_of]. apply U.
  - injection E as -> ->. apply send_error_close.
  - injection E as -> ->. apply handle_one_request_close. apply U.
Qed.

End Closes.

(** ** [end_headers] (lines 12-17) *)

(** C10: [end_headers] writes the lines queued so far, in their order and
    unchanged, then the three CORS lines, then the blank line; a line that
    was queued before is still there, so a queued header with the name of a
    CORS header occurs next to the CORS header. *)
Theorem end_headers_appends_after_queued (h : handler) :
  wfile (MyHTTPRequestHandler.end_headers h) =
  (wfile h
   ++ if is_09 h then []
      else [Head (headers_buffer h ++ cors_lines ++ [Py.CRLF])])%list
  /\ forall l : string,
      count_occ string_dec (headers_buffer h ++ cors_lines ++ [Py.CRLF])%list l
      = count_occ string_dec (headers_buffer h) l
        + count_occ string_dec cors_lines l
        + count_occ string_dec [Py.CRLF] l.
Proof.
  split.
  - rewrite end_headers_wfile. destruct (is_09 h); [| reflexivity].
    now rewrite app_nil_r.
  - intros l. rewrite !count_occ_app. lia.
Qed.

(** ** The root path (lines 19-23) *)

(** C2: a GET for [/] is answered as a GET for [/index.html]: the path is
    rewritten before the base class looks anything up, and the two requests
    give the same handler state, so the same status line, headers and body;
    two connections whose request lines [parse_request] accepts as these two
    requests get the same reply. *)
Theorem root_served_as_index
        (lib : stdlib) (dir : string) (fs : filesystem)
        (version : string) (hdrs : list (string * string)) (now : nat) :
  path (MyHTTPRequestHandler.rewrite_path
          (new_handler dir (mkRequest "GET" "/" version hdrs now))) = "/index.html"
  /\ MyHTTPRequestHandler.do_GET lib fs
       (new_handler dir (mkRequest "GET" "/" version hdrs now))
     = SimpleHTTPRequestHandler.do_GET lib MyHTTPRequestHandler.end_headers fs
         (new_handler dir (mkRequest "GET" "/index.html" version hdrs now))
  /\ dispatched lib dir fs (mkRequest "GET" "/" version hdrs now)
     = dispatched lib dir fs (mkRequest "GET" "/index.html" version hdrs now)
  /\ status_line (response lib dir fs (mkRequest "GET" "/" version hdrs now))
     = status_line (response lib dir fs (mkRequest "GET" "/index.html" version hdrs now))
  /\ body_of (response lib dir fs (mkRequest "GET" "/" version hdrs now))
     = body_of (response lib dir fs (mkRequest "GET" "/index.html" version hdrs now))
  /\ forall c1 c2 : connection,
      parsed lib dir c1 = Some (mkRequest "GET" "/" version hdrs now) ->
      parsed lib dir c2 = Some (mkRequest "GET" "/index.html" version hdrs now) ->
      RequestHandlerClass lib dir fs c1 = RequestHandlerClass lib dir fs c2
      /\ reply lib dir fs c1 = reply lib dir fs c2.
Proof.
  assert (E : dispatched lib dir fs (mkRequest "GET" "/" version hdrs now)
              = dispatched lib dir fs
                  (mkRequest "GET" "/index.html" version hdrs now))
    by reflexivity.
  split; [reflexivity |]. split; [reflexivity |]. split; [exact E |].
  unfold response. rewrite E. split; [reflexivity |]. split; [reflexivity |].
  intros c1 c2 H1 H2. unfold reply, answered.
  rewrite (handle_parsed lib dir fs c1 _ H1), (handle_parsed lib dir fs c2 _ H2), E.
  split; reflexivity.
Qed.

Lemma root_served_as_index_witness :
  reply Demo.lib Demo.root Demo.fs (Demo.conn "GET / HTTP/1.1")
  = reply Demo.lib Demo.root Demo.fs (Demo.conn "GET /index.html HTTP/1.1").
Proof.
  destruct (root_served_as_index Demo.lib Demo.root Demo.fs "HTTP/1.1" [] 5)
    as (_ & _ & _ & _ & _ & H).
  apply (H (Demo.conn "GET / HTTP/1.1") (Demo.conn "GET /index.html HTTP/1.1"));
    vm_compute; reflexivity.
Defined.

Lemma startswith_two_slashes (t : string) :
  Py.startswith "//" (String "/" (String "/" t)) = true.
Proof. destruct t; reflexivity. Qed.

(** The targets [parse_request] turns into the path [/]: those made of
    slashes only. *)
Lemma target_path_root (t : string) :
  target_path t = "/" <-> t <> "" /\ Py.lstrip "/" t = "".
Proof.
  unfold target_path.
  destruct t as [| a t]; [split; [discriminate | intros [H _]; now elim H] |].
  destruct (Ascii.eqb a "/") eqn:Ea.
  - apply Ascii.eqb_eq in Ea. subst a.
    destruct t as [| b t]; [split; [split; [discriminate | reflexivity] | reflexivity] |].
    destruct (Ascii.eqb b "/") eqn:Eb.
    + apply Ascii.eqb_eq in Eb. subst b.
      rewrite startswith_two_slashes.
      change (Py.lstrip "/" (String "/" (String "/" t))) with (Py.lstrip "/" t).
      split.
      * intros H. injection H as H. split; [discriminate | exact H].
      * intros [_ H]. now rewrite H.
    + assert (Es : Py.startswith "//" (String "/" (String b t)) = false).
      { unfold Py.startswith. cbn [String.prefix].
        destruct (ascii_dec "/" "/") as [_ | N]; [| now elim N].
        destruct (ascii_dec "/" b) as [E | _]; [| reflexivity].
        subst b. discriminate Eb. }
      rewrite Es. cbn [Py.lstrip]. rewrite Ascii.eqb_refl, Eb.
      split; [discriminate | intros [_ H]; discriminate H].
  - assert (Es : Py.startswith "//" (String a t) = false).
    { unfold Py.startswith. cbn [String.prefix].
      destruct (ascii_dec "/" a) as [E | _]; [| reflexivity].
      subst a. discriminate Ea. }
    rewrite Es. cbn [Py.lstrip]. rewrite Ea.
    split.
    + intros H. injection H as H _. subst a. discriminate Ea.
    + intros [_ H]. discriminate H.
Qed.

(** C8, as the claim states it, fails for [//]: [parse_request] reduces the
    leading slashes of the target to one before [do_GET] runs, so [do_GET]
    finds [self.path == '/'], rewrites it, and the reply is that of
    [/index.html]. *)
Lemma double_slash_is_rewritten :
  parsed Demo.lib Demo.root (Demo.conn "GET // HTTP/1.1")
  = Some (mkRequest "GET" "/" "HTTP/1.1" [] 5)
  /\ path (MyHTTPRequestHandler.rewrite_path
             (new_handler Demo.root (mkRequest "GET" "/" "HTTP/1.1" [] 5)))
     = "/index.html"
  /\ RequestHandlerClass Demo.lib Demo.root Demo.fs (Demo.conn "GET // HTTP/1.1")
     = RequestHandlerClass Demo.lib Demo.root Demo.fs
         (Demo.conn "GET /index.html HTTP/1.1")
  /\ status_line (reply Demo.lib Demo.root Demo.fs (Demo.conn "GET // HTTP/1.1"))
     = Some ("HTTP/1.0 200 OK" ++ Py.CRLF)
  /\ body_of (reply Demo.lib Demo.root Demo.fs (Demo.conn "GET // HTTP/1.1"))
     = content Demo.index_html.
Proof.
  split; [vm_compute; reflexivity |]. split; [reflexivity |].
  split; [vm_compute; reflexivity |]. split; vm_compute; reflexivity.
Qed.

(** C8, amended: lines 21-22 rewrite [self.path] exactly when it is the
    one-character string [/].  For a GET that [parse_request] accepts,
    [self.path] is the request target with two or more leading slashes
    reduced to one, so the rewrite fires exactly for the targets made of
    slashes only ([/], [//], [///], ...); [/?query=1] and [/.] reach the base
    class as they are, as does every other target. *)
Theorem only_slash_is_rewritten
        (lib : stdlib) (dir : string) (fs : filesystem)
        (c : connection) (r : request) :
  parsed lib dir c = Some r ->
  rq_command r = "GET" ->
  RequestHandlerClass lib dir fs c
  = SimpleHTTPRequestHandler.do_GET lib MyHTTPRequestHandler.end_headers fs
      (if rq_path r =? "/" then set_path "/index.html" (new_handler dir r)
       else new_handler dir r)
  /\ rq_path r = target_path (request_target c)
  /\ (rq_path r = "/"
      <-> request_target c <> "" /\ Py.lstrip "/" (request_target c) = "")
  /\ (request_target c = "/?query=1" \/ request_target c = "/." ->
      rq_path r = request_target c /\ (rq_path r =? "/") = false)
  /\ forall (p : string) (h : handler),
      MyHTTPRequestHandler.rewrite_path (set_path p h)
      = (if p =? "/" then set_path "/index.html" h else set_path p h)
      /\ MyHTTPRequestHandler.do_GET lib fs (set_path p h)
         = SimpleHTTPRequestHandler.do_GET lib MyHTTPRequestHandler.end_headers fs
             (if p =? "/" then set_path "/index.html" h else set_path p h).
Proof.
  intros Hp Hc.
  pose proof (parsed_spec lib dir c r Hp) as (_ & _ & _ & Hpath & _).
  split.
  { rewrite (handle_parsed lib dir fs c r Hp).
    unfold dispatched, MyHTTPRequestHandler.handle_one_request, handle_one_request,
      MyHTTPRequestHandler.getattr.
    cbv zeta.
    change ("do_" ++ command (new_handler dir r) =? "do_GET")
      with (rq_command r =? "GET").
    rewrite Hc. cbn [String.eqb Ascii.eqb Bool.eqb].
    unfold MyHTTPRequestHandler.do_GET, MyHTTPRequestHandler.rewrite_path.
    cbv zeta. cbn [new_handler path].
    destruct (rq_path r =? "/"); reflexivity. }
  split; [exact Hpath |].
  split; [rewrite Hpath; apply target_path_root |].
  split.
  { intros [E | E]; rewrite Hpath, E; split; reflexivity. }
  intros p h.
  assert (E : MyHTTPRequestHandler.rewrite_path (set_path p h)
              = (if p =? "/" then set_path "/index.html" h else set_path p h)).
  { unfold MyHTTPRequestHandler.rewrite_path. cbn [set_path path].
    destruct (p =? "/"); reflexivity. }
  split; [exact E |].
  unfold MyHTTPRequestHandler.do_GET. cbv zeta. now rewrite E.
Qed.

Lemma only_slash_is_rewritten_witness :
  let c := Demo.conn "GET /?query=1 HTTP/1.1" in
  let r := mkRequest "GET" "/?query=1" "HTTP/1.1" [] 5 in
  RequestHandlerClass Demo.lib Demo.root Demo.fs c
  = SimpleHTTPRequestHandler.do_GET Demo.lib MyHTTPRequestHandler.end_headers
      Demo.fs (new_handler Demo.root r)
  /\ (rq_path r =? "/") = false.
Proof.
  pose proof (only_slash_is_rewritten Demo.lib Demo.root Demo.fs
                (Demo.conn "GET /?query=1 HTTP/1.1")
                (mkRequest "GET" "/?query=1" "HTTP/1.1" [] 5)
                ltac:(vm_compute; reflexivity) eq_refl) as (H & _ & _ & _).
  split; [exact H | reflexivity].
Defined.

(** ** Where file lookups go: [translate_path] *)


Lemma rstrip_nonempty (s : string) :
  posixpath.all_sep s = false -> Py.rstrip posixpath.sep s <> "".
Proof.
  induction s as [| a r IH]; cbn [posixpath.all_sep Py.rstrip].
  - discriminate.
  - intros H. destruct (Py.rstrip posixpath.sep r) eqn:Er.
    + destruct (Ascii.eqb a posixpath.sep); [| discriminate].
      cbn [andb] in H. now apply IH in H.
    + discriminate.
Qed.







Example traversal_stays_under_root :
  SimpleHTTPRequestHandler.translate_path Demo.lib
    (new_handler Demo.root (Demo.get "/../../etc/passwd" "HTTP/1.1"))
    "/../../etc/passwd"
  = "/srv/demo/etc/passwd".
Proof. reflexivity. Qed.

(** ** Other methods *)

(** C6: the script adds a method for GET only.  For any other command
    [handle_one_request] finds what the base class has: [do_HEAD] for HEAD,
    and nothing for the rest, which get the 501 reply of the library. *)
Theorem other_methods_fall_through
        (lib : stdlib) (fs : filesystem) (h : handler) :
  command h <> "GET" ->
  MyHTTPRequestHandler.handle_one_request lib fs h
  = handle_one_request lib MyHTTPRequestHandler.end_headers
      (SimpleHTTPRequestHandler.getattr lib MyHTTPRequestHandler.end_headers) fs h
  /\ MyHTTPRequestHandler.handle_one_request lib fs h
     = if command h =? "HEAD"
       then SimpleHTTPRequestHandler.do_HEAD lib MyHTTPRequestHandler.end_headers fs h
       else Ok tt (send_error lib MyHTTPRequestHandler.end_headers 501
                     (Some ("Unsupported method (" ++ repr lib (command h) ++ ")"))
                     None h).
Proof.
  intros Hc. apply String.eqb_neq in Hc.
  unfold MyHTTPRequestHandler.handle_one_request, handle_one_request,
    MyHTTPRequestHandler.getattr, SimpleHTTPRequestHandler.getattr.
  cbv zeta.
  change ("do_" ++ command h =? "do_GET") with (command h =? "GET").
  change ("do_" ++ command h =? "do_HEAD") with (command h =? "HEAD").
  rewrite Hc. split; [reflexivity |].
  destruct (command h =? "HEAD"); reflexivity.
Qed.

Lemma other_methods_fall_through_witness :
  let h := new_handler Demo.root (mkRequest "POST" "/" "HTTP/1.1" [] 5) in
  MyHTTPRequestHandler.handle_one_request Demo.lib Demo.fs h
  = handle_one_request Demo.lib MyHTTPRequestHandler.end_headers
      (SimpleHTTPRequestHandler.getattr Demo.lib MyHTTPRequestHandler.end_headers)
      Demo.fs h
  /\ MyHTTPRequestHandler.handle_one_request Demo.lib Demo.fs h
     = if command h =? "HEAD"
       then SimpleHTTPRequestHandler.do_HEAD Demo.lib
              MyHTTPRequestHandler.end_headers Demo.fs h
       else Ok tt (send_error Demo.lib MyHTTPRequestHandler.end_headers 501
                     (Some ("Unsupported method ("
                            ++ repr Demo.lib (command h) ++ ")"))
                     None h).
Proof.
  apply (other_methods_fall_through Demo.lib Demo.fs
           (new_handler Demo.root (mkRequest "POST" "/" "HTTP/1.1" [] 5))).
  intros H. discriminate H.
Defined.

(** ** Error replies *)

Lemma log_error_wfile (code : nat) (m : string) (h : handler) :
  wfile (log_error code m h) = wfile h.
Proof. reflexivity. Qed.

Lemma log_error_buffer (code : nat) (m : string) (h : handler) :
  headers_buffer (log_error code m h) = headers_buffer h.
Proof. reflexivity. Qed.

Lemma log_error_is_09 (code : nat) (m : string) (h : handler) :
  is_09 (log_error code m h) = is_09 h.
Proof. reflexivity. Qed.

Lemma log_error_log (code : nat) (m : string) (h : handler) :
  log (log_error code m h) = (log h ++ [LogError code m])%list.
Proof. reflexivity. Qed.

Lemma write_wfile (c : chunk) (h : handler) :
  wfile (write c h) = (wfile h ++ [c])%list.
Proof. reflexivity. Qed.

Lemma write_log (c : chunk) (h : handler) : log (write c h) = log h.
Proof. reflexivity. Qed.

#[local] Hint Rewrite log_error_wfile log_error_buffer log_error_is_09
  log_error_log write_wfile write_log : handler.

(** [send_error] logs the error and the status. *)
Lemma send_error_log (lib : stdlib) (code : nat) (m : string)
      (explain : option string) (h : handler) :
  log (send_error lib MyHTTPRequestHandler.end_headers code (Some m) explain h)
  = (log h ++ [LogError code m; LogRequest code])%list.
Proof.
  unfold send_error. cbv zeta.
  destruct ((200 <=? code)%nat && _);
    [destruct (negb _ && _) |];
    autorewrite with handler; now rewrite <- app_assoc.
Qed.

(** The header block [send_error] writes starts with the status line of
    [code]; for an HTTP/0.9 request there is no header block. *)
Lemma send_error_status_line (lib : stdlib) (code : nat) (m : string)
      (explain : option string) (h : handler) :
  wfile h = [] -> headers_buffer h = [] ->
  status_line
    (wfile (send_error lib MyHTTPRequestHandler.end_headers code (Some m) explain h))
  = if is_09 h then None else Some (status_text lib code (Some m)).
Proof.
  intros Hw Hb. unfold send_error. cbv zeta.
  destruct ((200 <=? code)%nat && _);
    [destruct (negb _ && _) |];
    autorewrite with handler; rewrite Hw, Hb;
    destruct (is_09 h); reflexivity.
Qed.

(** ** The server loop with the script's handler *)

(** An exception of the handler never leaves [_handle_request_noblock]. *)
Lemma handle_request_noblock_catches (lib : stdlib) (c : connection) (w : world) :
  fst (TCPServer.handle_request_noblock (RequestHandlerClass lib) c w) = None.
Proof.
  unfold TCPServer.handle_request_noblock.
  pose proof (handle_replies lib (cwd w) (fs w) c) as (_ & _ & H).
  destruct (RequestHandlerClass lib (cwd w) (fs w) c) as [u h | e h].
  - reflexivity.
  - now rewrite H.
Qed.

(** One connection: the handler was built on the current directory, the
    file system and the socket are as before, and the trace got the served
    handler (and a traceback when it raised). *)
Lemma serve_one_spec (lib : stdlib) (w : world) (c : connection) :
  cwd (serve_one lib w c) = cwd w /\
  fs (serve_one lib w c) = fs w /\
  socket (serve_one lib w c) = socket w /\
  exists (h : handler) (tb : list effect),
    trace (serve_one lib w c) = (trace w ++ Served h :: tb)%list /\
    directory h = cwd w /\
    stdout_of tb = "" /\ served_of tb = [].
Proof.
  unfold serve_one, TCPServer.handle_request_noblock.
  pose proof (handle_replies lib (cwd w) (fs w) c) as (Hd & _ & H).
  destruct (RequestHandlerClass lib (cwd w) (fs w) c) as [u h | e h];
    cbn [state_of] in Hd.
  - cbn. repeat split. exists h, []. repeat split. exact Hd.
  - rewrite H. cbn. repeat split.
    exists h, [Traceback e]. repeat split.
    + now rewrite <- app_assoc.
    + exact Hd.
Qed.

Lemma serve_forever_run (lib : stdlib) (events : list event) (w : world) :
  TCPServer.serve_forever (RequestHandlerClass lib) events w =
  if interrupted events
  then TCPServer.Raised KeyboardInterrupt (serve_all lib (accepted events) w)
  else TCPServer.Waiting (serve_all lib (accepted events) w).
Proof.
  revert w. induction events as [| [c |] rest IH]; intros w;
    cbn [TCPServer.serve_forever interrupted accepted serve_all fold_left].
  - reflexivity.
  - assert (E : TCPServer.handle_request_noblock (RequestHandlerClass lib) c w
                = (None, serve_one lib w c)).
    { unfold serve_one. rewrite <- (handle_request_noblock_catches lib c w).
      apply surjective_pairing. }
    rewrite E. apply IH.
  - reflexivity.
Qed.

Lemma stdout_of_app (a b : list effect) :
  stdout_of (a ++ b)%list = stdout_of a ++ stdout_of b.
Proof.
  induction a as [| e a IH]; cbn [app stdout_of]; [reflexivity |].
  destruct e; try assumption.
  rewrite IH. clear. induction text; cbn; [reflexivity | now f_equal].
Qed.

Lemma served_of_app (a b : list effect) :
  served_of (a ++ b)%list = (served_of a ++ served_of b)%list.
Proof.
  induction a as [| e a IH]; cbn [app served_of]; [reflexivity |].
  destruct e; try assumption. cbn [app]. now rewrite IH.
Qed.

(** Serving connections: directory, file system and socket stay, nothing
    goes to [sys.stdout], and each connection adds one served handler, built
    on the current directory. *)
Lemma serve_all_spec (lib : stdlib) (cs : list connection) (w : world) :
  cwd (serve_all lib cs w) = cwd w /\
  fs (serve_all lib cs w) = fs w /\
  socket (serve_all lib cs w) = socket w /\
  exists t : list effect,
    trace (serve_all lib cs w) = (trace w ++ t)%list /\
    stdout_of t = "" /\
    length (served_of t) = length cs /\
    Forall (fun h => directory h = cwd w) (served_of t).
Proof.
  revert w. induction cs as [| c cs IH]; intros w; cbn [serve_all fold_left].
  - repeat split. exists []. rewrite app_nil_r. repeat split. constructor.
  - fold (serve_all lib cs (serve_one lib w c)).
    destruct (IH (serve_one lib w c)) as (Hc & Hf & Hs & t & Ht & Ho & Hl & Hd).
    destruct (serve_one_spec lib w c)
      as (Hc1 & Hf1 & Hs1 & h & tb & Ht1 & Hd1 & Ho1 & Hv1).
    repeat split; try congruence.
    exists (Served h :: tb ++ t)%list. repeat split.
    + rewrite Ht, Ht1. rewrite <- app_assoc. reflexivity.
    + cbn [stdout_of]. rewrite stdout_of_app, Ho1, Ho. reflexivity.
    + cbn [served_of length]. rewrite served_of_app, Hv1. cbn [app].
      now rewrite Hl.
    + cbn [served_of]. rewrite served_of_app, Hv1. cbn [app].
      constructor; [exact Hd1 |].
      rewrite Hc1 in Hd. exact Hd.
Qed.

(** The script as a whole. *)
Lemma main_run (lib : stdlib) (file : string) (bind_ok : bool)
      (events : list event) (w : world) :
  main lib file bind_ok events w =
  if bind_ok then
    let w' := serve_all lib (accepted events)
                (set_socket Listening
                   (record Listen (record (Bind "" PORT) (started file w)))) in
    if interrupted events
    then Exited 0 (TCPServer.server_close (print (Py.NL ++ "Server stopped.") w'))
    else Running w'
  else
    Died OSError
      (record (Traceback OSError)
         (set_socket Closed
            (record Close (record (Bind "" PORT) (started file w))))).
Proof.
  unfold main, started, TCPServer.init. cbv zeta.
  destruct bind_ok; [| reflexivity].
  rewrite serve_forever_run. destruct (interrupted events); reflexivity.
Qed.

Ltac world_simpl :=
  unfold TCPServer.server_close, started, print, chdir, record, set_socket in *;
  cbn [cwd fs socket trace world_of] in *.

(** ** File errors *)

(** C3, as the claim states it, fails.  A name with a NUL character resolves
    to no file: [open] raises [ValueError], which [send_head] does not catch
    ([except OSError]); the handler is left by the exception, the connection
    gets no status and no byte, and the exception reaches the server, which
    writes its traceback.  And a request line without a version (HTTP/0.9)
    for a missing file gets the 404 page without a status line. *)
Lemma open_error_escapes_the_handler :
  let c := Demo.conn ("GET /" ++ Demo.NUL ++ " HTTP/1.1") in
  let w := mkWorld Demo.root Demo.bare_fs Listening [] in
  (exists h : handler,
      RequestHandlerClass Demo.lib Demo.root Demo.bare_fs c = Raise ValueError h
      /\ wfile h = []
      /\ TCPServer.handle_request_noblock (RequestHandlerClass Demo.lib) c w
         = (None, record (Traceback ValueError) (record (Served h) w)))
  /\ status_line (reply Demo.lib Demo.root Demo.fs (Demo.conn "GET /nope.css"))
     = None.
Proof.
  split; [| vm_compute; reflexivity].
  eexists. split; [vm_compute; reflexivity |].
  split; vm_compute; reflexivity.
Qed.

(** C3, amended: a GET or HEAD that [parse_request] accepts and whose path
    leads to no file that can be opened (the name is not a directory, and
    [open] raises [OSError] or the name ends in [/]) returns normally with
    the 404 reply of [send_error]: the status is logged as 404, the status
    line says 404 and the reply has the CORS headers (an HTTP/0.9 request
    gets neither, only the page), no exception reaches [serve_forever], and
    the loop goes on with the next event. *)
Theorem file_error_is_404_and_server_goes_on
        (lib : stdlib) (c : connection) (r : request) (w : world)
        (rest : list event) :
  parsed lib (cwd w) c = Some r ->
  rq_command r = "GET" \/ rq_command r = "HEAD" ->
  let h0 := if rq_command r =? "GET"
            then MyHTTPRequestHandler.rewrite_path (new_handler (cwd w) r)
            else new_handler (cwd w) r in
  isdir (fs w) (SimpleHTTPRequestHandler.translate_path lib h0 (path h0))
  = false ->
  Py.endswith "/" (SimpleHTTPRequestHandler.translate_path lib h0 (path h0))
  = true
  \/ open_rb (fs w) (SimpleHTTPRequestHandler.translate_path lib h0 (path h0))
     = OpenOSError ->
  exists h : handler,
    RequestHandlerClass lib (cwd w) (fs w) c = Ok tt h /\
    log h = [LogError 404 "File not found"; LogRequest 404] /\
    status_line (wfile h)
    = (if rq_version r =? "HTTP/0.9" then None
       else Some ("HTTP/1.0 404 File not found" ++ Py.CRLF)) /\
    (rq_version r <> "HTTP/0.9" -> has_cors (wfile h) = true) /\
    TCPServer.serve_forever (RequestHandlerClass lib) (Connection c :: rest) w
    = TCPServer.serve_forever (RequestHandlerClass lib) rest (record (Served h) w).
Proof.
  intros Hp Hc h0 Hdir Hopen.
  exists (send_error lib MyHTTPRequestHandler.end_headers 404
            (Some "File not found") None h0).
  assert (Hhead : SimpleHTTPRequestHandler.send_head lib
                    MyHTTPRequestHandler.end_headers (fs w) h0
                  = Ok None (send_error lib MyHTTPRequestHandler.end_headers 404
                               (Some "File not found") None h0)).
  { unfold SimpleHTTPRequestHandler.send_head.
    cbv zeta. rewrite Hdir.
    unfold SimpleHTTPRequestHandler.send_file. cbv zeta.
    destruct Hopen as [Hs | Ho].
    - rewrite Hs. reflexivity.
    - destruct (Py.endswith "/" _); [reflexivity |]. rewrite Ho. reflexivity. }
  assert (Hrun : RequestHandlerClass lib (cwd w) (fs w) c
                 = Ok tt (send_error lib MyHTTPRequestHandler.end_headers 404
                            (Some "File not found") None h0)).
  { rewrite (handle_parsed lib (cwd w) (fs w) c r Hp).
    unfold dispatched, MyHTTPRequestHandler.handle_one_request,
      handle_one_request, MyHTTPRequestHandler.getattr,
      SimpleHTTPRequestHandler.getattr.
    cbv zeta. cbn [new_handler command].
    change ("do_" ++ rq_command r =? "do_GET") with (rq_command r =? "GET").
    change ("do_" ++ rq_command r =? "do_HEAD") with (rq_command r =? "HEAD").
    subst h0. destruct Hc as [Hc | Hc]; rewrite Hc in *;
      cbn [String.eqb Ascii.eqb Bool.eqb] in *.
    - unfold MyHTTPRequestHandler.do_GET. cbv zeta.
      unfold SimpleHTTPRequestHandler.do_GET. rewrite Hhead. reflexivity.
    - unfold SimpleHTTPRequestHandler.do_HEAD. rewrite Hhead. reflexivity. }
  assert (H0 : wfile h0 = [] /\ headers_buffer h0 = [] /\ log h0 = []
               /\ request_version h0 = rq_version r).
  { unfold h0, MyHTTPRequestHandler.rewrite_path.
    destruct (rq_command r =? "GET"); [| repeat split].
    destruct (path _ =? "/"); repeat split. }
  destruct H0 as (Hw0 & Hb0 & Hl0 & Hv0).
  split; [exact Hrun |]. split; [| split; [| split]].
  - rewrite send_error_log, Hl0. reflexivity.
  - rewrite send_error_status_line by assumption.
    unfold is_09. rewrite Hv0. reflexivity.
  - intros Hne.
    destruct (sends_send_error lib 404 (Some "File not found") None h0)
      as (_ & _ & _ & blk & Hw & _ & Hhas).
    rewrite Hw, Hw0. cbn [app]. apply Hhas; [reflexivity |].
    apply is_09_false. now rewrite Hv0.
  - cbn [TCPServer.serve_forever]. unfold TCPServer.handle_request_noblock.
    rewrite Hrun. reflexivity.
Qed.

Lemma file_error_is_404_and_server_goes_on_witness :
  let c := Demo.conn "HEAD /nope.css HTTP/1.1" in
  let w := mkWorld Demo.root Demo.fs Listening [] in
  exists h : handler,
    RequestHandlerClass Demo.lib (cwd w) (fs w) c = Ok tt h /\
    log h = [LogError 404 "File not found"; LogRequest 404] /\
    status_line (wfile h) = Some ("HTTP/1.0 404 File not found" ++ Py.CRLF) /\
    has_cors (wfile h) = true /\
    TCPServer.serve_forever (RequestHandlerClass Demo.lib) [Connection c; Sigint] w
    = TCPServer.serve_forever (RequestHandlerClass Demo.lib) [Sigint]
        (record (Served h) w).
Proof.
  destruct (file_error_is_404_and_server_goes_on Demo.lib
              (Demo.conn "HEAD /nope.css HTTP/1.1")
              (mkRequest "HEAD" "/nope.css" "HTTP/1.1" [] 5)
              (mkWorld Demo.root Demo.fs Listening []) [Sigint]
              ltac:(vm_compute; reflexivity)
              ltac:(right; reflexivity)
              ltac:(vm_compute; reflexivity)
              ltac:(right; vm_compute; reflexivity))
    as (h & H1 & H2 & H3 & H4 & H5).
  exists h. split; [exact H1 |]. split; [exact H2 |]. split; [exact H3 |].
  split; [apply H4; discriminate | exact H5].
Defined.

(** ** Start and stop (lines 25-36) *)

Lemma accepted_connections (rs : list connection) (tail : list event) :
  accepted (map Connection rs ++ tail) = (rs ++ accepted tail)%list.
Proof.
  induction rs as [| r rs IH]; cbn [map app accepted];
    [reflexivity | now rewrite IH].
Qed.

Lemma interrupted_connections (rs : list connection) (tail : list event) :
  interrupted (map Connection rs ++ tail) = interrupted tail.
Proof.
  induction rs as [| r rs IH]; cbn [map app interrupted];
    [reflexivity | exact IH].
Qed.

(** C4: when Ctrl+C arrives, the connections that arrived before it have
    been served and none after it is; the script prints the line
    [Server stopped.] (after a line break), the socket is closed and the
    process exits with status 0. *)
Theorem interrupt_stops_the_server
        (lib : stdlib) (file : string) (rs : list connection) (rest : list event)
        (w : world) :
  exists w_run : world,
    main lib file true (map Connection rs) w = Running w_run /\
    main lib file true (map Connection rs ++ Sigint :: rest) w
    = Exited 0 (TCPServer.server_close (print (Py.NL ++ "Server stopped.") w_run)) /\
    trace (TCPServer.server_close (print (Py.NL ++ "Server stopped.") w_run))
    = (trace w_run ++ [Print (Py.NL ++ "Server stopped." ++ Py.NL); Close])%list /\
    socket (TCPServer.server_close (print (Py.NL ++ "Server stopped.") w_run))
    = Closed /\
    served (TCPServer.server_close (print (Py.NL ++ "Server stopped.") w_run))
    = served w_run.
Proof.
  pose proof (accepted_connections rs) as Ha.
  pose proof (interrupted_connections rs) as Hi.
  eexists. split; [| split; [| split; [| split]]].
  - rewrite main_run. cbv zeta.
    rewrite <- (app_nil_r (map Connection rs)), Hi, Ha.
    cbn [interrupted accepted]. rewrite app_nil_r. reflexivity.
  - rewrite main_run. cbv zeta. rewrite Hi, Ha.
    cbn [interrupted accepted]. rewrite app_nil_r. reflexivity.
  - world_simpl. rewrite <- app_assoc. reflexivity.
  - reflexivity.
  - unfold served. world_simpl. rewrite <- app_assoc, served_of_app.
    cbn [served_of app]. now rewrite app_nil_r.
Qed.

(** C9: the two start-up lines are printed before the socket is bound, so
    when binding fails the lines are out already and nothing else follows
    but the close of the socket and the traceback of the uncaught
    [OSError]. *)
Theorem startup_line_printed_before_bind
        (lib : stdlib) (file : string) (bind_ok : bool) (events : list event)
        (w : world) :
  (exists rest : list effect,
      trace (world_of (main lib file bind_ok events w))
      = (trace w
         ++ [ Chdir (posixpath.dirname (posixpath.abspath (cwd w) file));
              Print ("Starting server at http://localhost:8000" ++ Py.NL);
              Print ("Press Ctrl+C to stop" ++ Py.NL);
              Bind "" 8000 ]
         ++ rest)%list)
  /\ exists w' : world,
      main lib file false events w = Died OSError w' /\
      trace w'
      = (trace w
         ++ [ Chdir (posixpath.dirname (posixpath.abspath (cwd w) file));
              Print ("Starting server at http://localhost:8000" ++ Py.NL);
              Print ("Press Ctrl+C to stop" ++ Py.NL);
              Bind "" 8000;
              Close;
              Traceback OSError ])%list.
Proof.
  split.
  - rewrite main_run. destruct bind_ok; cbv zeta.
    + match goal with
      | |- context [serve_all lib ?rs ?w0] =>
          destruct (serve_all_spec lib rs w0) as (_ & _ & _ & t & Ht & _)
      end.
      destruct (interrupted events); world_simpl; rewrite Ht;
        eexists; repeat (rewrite <- app_assoc; cbn [app]); reflexivity.
    + world_simpl. eexists. repeat (rewrite <- app_assoc; cbn [app]). reflexivity.
  - eexists. split; [rewrite main_run; reflexivity |].
    world_simpl. repeat (rewrite <- app_assoc; cbn [app]). reflexivity.
Qed.


(** ** The shape of a response *)

Lemma end_headers_buffer (h : handler) :
  headers_buffer (MyHTTPRequestHandler.end_headers h) =
  if is_09 h then headers_buffer h else [].
Proof. rewrite end_headers_unfold. now destruct (is_09 h). Qed.

Lemma write_buffer (c : chunk) (h : handler) :
  headers_buffer (write c h) = headers_buffer h.
Proof. reflexivity. Qed.

Lemma write_is_09 (c : chunk) (h : handler) : is_09 (write c h) = is_09 h.
Proof. reflexivity. Qed.

Lemma write_command (c : chunk) (h : handler) : command (write c h) = command h.
Proof. reflexivity. Qed.

Lemma log_error_command (code : nat) (m : string) (h : handler) :
  command (log_error code m h) = command h.
Proof. reflexivity. Qed.

#[local] Hint Rewrite end_headers_buffer write_buffer write_is_09 write_command
  log_error_command : handler.

Lemma rewrite_path_fields (h : handler) :
  wfile (MyHTTPRequestHandler.rewrite_path h) = wfile h /\
  headers_buffer (MyHTTPRequestHandler.rewrite_path h) = headers_buffer h /\
  is_09 (MyHTTPRequestHandler.rewrite_path h) = is_09 h /\
  command (MyHTTPRequestHandler.rewrite_path h) = command h /\
  log (MyHTTPRequestHandler.rewrite_path h) = log h.
Proof.
  unfold MyHTTPRequestHandler.rewrite_path.
  destruct (path h =? "/"); repeat split.
Qed.

Lemma rewrite_path_clock (h : handler) :
  clock (MyHTTPRequestHandler.rewrite_path h) = clock h.
Proof.
  unfold MyHTTPRequestHandler.rewrite_path.
  destruct (path h =? "/"); reflexivity.
Qed.

(** What [send_error] writes: for a request that is not HTTP/0.9 one header
    block (status line first, the three CORS lines and the blank line last),
    then the error page unless the command is HEAD or the status has no
    body; for an HTTP/0.9 request the page alone. *)
Lemma send_error_wfile (lib : stdlib) (code : nat) (m : string)
      (explain : option string) (h : handler) :
  exists (hdrs : list string) (tail : list chunk),
    wfile (send_error lib MyHTTPRequestHandler.end_headers code (Some m) explain h)
    = (wfile h
       ++ (if is_09 h then []
           else [Head (headers_buffer h
                       ++ status_text lib code (Some m) :: hdrs
                       ++ cors_lines ++ [Py.CRLF])])
       ++ tail)%list
    /\ (tail = [] \/ exists b, tail = [Body b])
    /\ (command h = "HEAD" -> tail = []).
Proof.
  unfold send_error. cbv zeta.
  destruct ((200 <=? code)%nat && _).
  - match goal with
    | |- context [if negb (command ?x =? "HEAD") && Py.truthy ?b then _ else _] =>
        assert (Hc : command x = command h) by (now autorewrite with handler);
        rewrite Hc;
        exists [ header_line "Server" (version_string lib);
                 header_line "Date" (date_time_string lib None h);
                 header_line "Connection" "close";
                 header_line "Content-Type" "text/html;charset=utf-8";
                 header_line "Content-Length" (Py.str (Py.len b)) ];
        destruct (command h =? "HEAD") eqn:Eh; cbn [negb andb];
        [exists [] | destruct (Py.truthy b); [exists [Body b] | exists []]]
    end.
    + autorewrite with handler. split; [| split; [now left | reflexivity]].
      destruct (is_09 h); rewrite ?app_nil_r;
        repeat (rewrite <- app_assoc; cbn [app]); reflexivity.
    + autorewrite with handler. apply String.eqb_neq in Eh.
      split; [| split; [right; eexists; reflexivity | contradiction]].
      destruct (is_09 h); rewrite ?app_nil_r;
        repeat (rewrite <- app_assoc; cbn [app]); reflexivity.
    + autorewrite with handler. apply String.eqb_neq in Eh.
      split; [| split; [now left | reflexivity]].
      destruct (is_09 h); rewrite ?app_nil_r;
        repeat (rewrite <- app_assoc; cbn [app]); reflexivity.
  - exists [ header_line "Server" (version_string lib);
             header_line "Date" (date_time_string lib None h);
             header_line "Connection" "close" ], [].
    autorewrite with handler.
    split; [| split; [now left | reflexivity]].
    destruct (is_09 h); rewrite ?app_nil_r;
      repeat (rewrite <- app_assoc; cbn [app]); reflexivity.
Qed.

(** A handler that has written and queued nothing, for a request that is not
    HTTP/0.9: the state in which a method of the handler starts. *)
Lemma new_handler_fresh (dir : string) (r : request) :
  rq_version r <> "HTTP/0.9" ->
  wfile (MyHTTPRequestHandler.rewrite_path (new_handler dir r)) = [] /\
  headers_buffer (MyHTTPRequestHandler.rewrite_path (new_handler dir r)) = [] /\
  is_09 (MyHTTPRequestHandler.rewrite_path (new_handler dir r)) = false /\
  wfile (new_handler dir r) = [] /\
  headers_buffer (new_handler dir r) = [] /\
  is_09 (new_handler dir r) = false.
Proof.
  intros Hv.
  destruct (rewrite_path_fields (new_handler dir r)) as (Hw & Hb & H9 & _).
  rewrite Hw, Hb, H9. repeat split. all: now apply is_09_false.
Qed.

Section Shape.
Variable lib : stdlib.
Variable fs : filesystem.

Let eh := MyHTTPRequestHandler.end_headers.

(** One header block, status line first, CORS lines and blank line last. *)
Let head_first (h' : handler) (tail : list chunk) : Prop :=
  exists (code : nat) (msg : option string) (hdrs : list string),
    wfile h' = Head (status_text lib code msg :: hdrs ++ cors_lines ++ [Py.CRLF])
               :: tail.

Lemma shape_send_error (code : nat) (m : string) (explain : option string)
      (h : handler) :
  wfile h = [] -> headers_buffer h = [] -> is_09 h = false ->
  exists tail : list chunk,
    head_first (send_error lib eh code (Some m) explain h) tail
    /\ (tail = [] \/ exists b, tail = [Body b])
    /\ (command h = "HEAD" -> tail = []).
Proof.
  intros Hw Hb H9.
  destruct (send_error_wfile lib code m explain h) as (hdrs & tail & E & Ht & Hh).
  rewrite Hw, Hb, H9 in E. cbn [app] in E.
  exists tail. split; [| split; assumption].
  unfold head_first. exists code, (Some m), hdrs. exact E.
Qed.

Lemma shape_list_directory (p : string) (h h' : handler) (f : option string) :
  wfile h = [] -> headers_buffer h = [] -> is_09 h = false ->
  SimpleHTTPRequestHandler.list_directory lib eh fs p h = Ok f h' ->
  exists tail : list chunk,
    head_first h' tail
    /\ (tail = [] \/ exists b, f = None /\ command h <> "HEAD" /\ tail = [Body b]).
Proof.
  intros Hw Hb H9. unfold SimpleHTTPRequestHandler.list_directory.
  destruct (listdir fs p) as [names |]; intros Hrun; inversion Hrun; subst; clear Hrun.
  - exists []. split; [| now left].
    unfold head_first. eexists 200, None, [_; _; _; _]. unfold eh.
    autorewrite with handler. rewrite Hw, Hb, H9. cbn [app]. reflexivity.
  - destruct (shape_send_error 404 "No permission to list directory" None h Hw Hb H9)
      as (tail & Hf & Ht & Hh).
    exists tail. split; [exact Hf |].
    destruct Ht as [Ht | [b Ht]]; [now left | right].
    exists b. repeat split; [| exact Ht].
    intros Hc. apply Hh in Hc. congruence.
Qed.

Lemma shape_send_file (p : string) (h h' : handler) (f : option string) :
  wfile h = [] -> headers_buffer h = [] -> is_09 h = false ->
  SimpleHTTPRequestHandler.send_file lib eh fs p h = Ok f h' ->
  exists tail : list chunk,
    head_first h' tail
    /\ (tail = [] \/ exists b, f = None /\ command h <> "HEAD" /\ tail = [Body b]).
Proof.
  intros Hw Hb H9. unfold SimpleHTTPRequestHandler.send_file. cbv zeta.
  assert (Herr : forall f0 h0,
             Ok (@None string)
                (send_error lib eh 404 (Some "File not found") None h)
             = Ok f0 h0 ->
             exists tail : list chunk,
               head_first h0 tail
               /\ (tail = [] \/ exists b, f0 = None /\ command h <> "HEAD"
                                          /\ tail = [Body b])).
  { intros f0 h0 Hrun. inversion Hrun; subst; clear Hrun.
    destruct (shape_send_error 404 "File not found" None h Hw Hb H9)
      as (tail & Hf & Ht & Hh).
    exists tail. split; [exact Hf |].
    destruct Ht as [Ht | [b Ht]]; [now left | right].
    exists b. repeat split; [| exact Ht].
    intros Hc. apply Hh in Hc. congruence. }
  destruct (Py.endswith "/" p); [apply Herr |].
  destruct (open_rb fs p) as [fl | |]; [| apply Herr | discriminate].
  match goal with |- context [if ?c then _ else _] => destruct c end;
    intros Hrun; inversion Hrun; subst; clear Hrun;
    exists []; (split; [| now left]).
  - unfold head_first. eexists 304, None, [_; _]. unfold eh.
    autorewrite with handler. rewrite Hw, Hb, H9. cbn [app]. reflexivity.
  - unfold head_first. eexists 200, None, [_; _; _; _; _]. unfold eh.
    autorewrite with handler. rewrite Hw, Hb, H9. cbn [app]. reflexivity.
Qed.

Lemma shape_send_head (h h' : handler) (f : option string) :
  wfile h = [] -> headers_buffer h = [] -> is_09 h = false ->
  SimpleHTTPRequestHandler.send_head lib eh fs h = Ok f h' ->
  exists tail : list chunk,
    head_first h' tail
    /\ (tail = [] \/ exists b, f = None /\ command h <> "HEAD" /\ tail = [Body b]).
Proof.
  intros Hw Hb H9. unfold SimpleHTTPRequestHandler.send_head. cbv zeta.
  destruct (isdir fs _); [| now apply shape_send_file].
  destruct (negb _).
  - intros Hrun; inversion Hrun; subst; clear Hrun.
    exists []. split; [| now left].
    unfold head_first. eexists 301, None, [_; _; _; _]. unfold eh.
    autorewrite with handler. rewrite Hw, Hb, H9. cbn [app]. reflexivity.
  - destruct (isfile fs _); [now apply shape_send_file |].
    destruct (isfile fs _); [now apply shape_send_file |].
    now apply shape_list_directory.
Qed.

End Shape.

(** X1: a reply to a request that [parse_request] accepts with a version
    other than HTTP/0.9 is one header block followed by at most one body: the
    block starts with the status line and ends with the three CORS headers
    and the blank line, so no header of the base class comes after them; a
    reply to HEAD has no body. *)
Theorem reply_is_header_block_then_body
        (lib : stdlib) (dir : string) (fs : filesystem) (c : connection)
        (r : request) (h : handler) :
  parsed lib dir c = Some r ->
  rq_version r <> "HTTP/0.9" ->
  RequestHandlerClass lib dir fs c = Ok tt h ->
  exists (code : nat) (msg : option string) (hdrs : list string)
         (tail : list chunk),
    wfile h = Head (status_text lib code msg :: hdrs ++ cors_lines ++ [Py.CRLF])
              :: tail
    /\ (tail = [] \/ exists b, tail = [Body b])
    /\ (rq_command r = "HEAD" -> tail = []).
Proof.
  intros Hp Hv. rewrite (handle_parsed lib dir fs c r Hp).
  destruct (new_handler_fresh dir r Hv) as (Hw1 & Hb1 & H91 & Hw0 & Hb0 & H90).
  unfold dispatched, MyHTTPRequestHandler.handle_one_request,
    handle_one_request, MyHTTPRequestHandler.getattr,
    SimpleHTTPRequestHandler.getattr.
  cbv zeta.
  change ("do_" ++ command (new_handler dir r) =? "do_GET")
    with (rq_command r =? "GET").
  change ("do_" ++ command (new_handler dir r) =? "do_HEAD")
    with (rq_command r =? "HEAD").
  destruct (rq_command r =? "GET") eqn:Eg.
  - (* do_GET of the script *)
    apply String.eqb_eq in Eg.
    unfold MyHTTPRequestHandler.do_GET, SimpleHTTPRequestHandler.do_GET. cbv zeta.
    destruct (SimpleHTTPRequestHandler.send_head lib _ fs _) as [f h1 | e h1] eqn:Es;
      [| discriminate].
    destruct (shape_send_head lib fs _ _ _ Hw1 Hb1 H91 Es)
      as (tail & (code & msg & hdrs & Hf) & Ht).
    destruct f as [f |]; intros Hrun; inversion Hrun; subst; clear Hrun.
    + destruct Ht as [Ht | (b & Hn & _)]; [subst tail | discriminate].
      unfold SimpleHTTPRequestHandler.copyfile.
      destruct (Py.truthy f).
      * exists code, msg, hdrs, [Body f]. rewrite write_wfile, Hf.
        split; [reflexivity |]. split; [right; now exists f |].
        intros Hh. rewrite Eg in Hh. discriminate.
      * exists code, msg, hdrs, []. split; [exact Hf |].
        split; [now left | reflexivity].
    + exists code, msg, hdrs, tail. split; [exact Hf |]. split.
      * destruct Ht as [Ht | (b & _ & _ & Ht)]; [now left | right; now exists b].
      * intros Hh. rewrite Eg in Hh. discriminate.
  - destruct (rq_command r =? "HEAD") eqn:Eh.
    + (* do_HEAD of the base class *)
      apply String.eqb_eq in Eh.
      unfold SimpleHTTPRequestHandler.do_HEAD.
      destruct (SimpleHTTPRequestHandler.send_head lib _ fs _) as [f h1 | e h1] eqn:Es;
        [| discriminate].
      destruct (shape_send_head lib fs _ _ _ Hw0 Hb0 H90 Es)
        as (tail & (code & msg & hdrs & Hf) & Ht).
      intros Hrun; inversion Hrun; subst; clear Hrun.
      assert (tail = []) as ->.
      { destruct Ht as [Ht | (b & _ & Hc & _)]; [exact Ht |].
        exfalso. apply Hc. exact Eh. }
      exists code, msg, hdrs, []. split; [exact Hf |].
      split; [now left | reflexivity].
    + (* no such method: 501 *)
      intros Hrun; inversion Hrun; subst; clear Hrun.
      destruct (shape_send_error lib 501
                  ("Unsupported method (" ++ repr lib (command (new_handler dir r))
                   ++ ")") None _ Hw0 Hb0 H90)
        as (tail & (code & msg & hdrs & Hf) & Ht & _).
      exists code, msg, hdrs, tail. split; [exact Hf |]. split; [exact Ht |].
      intros Hh. rewrite Hh in Eh. discriminate.
Qed.

Lemma reply_is_header_block_then_body_witness :
  let r := Demo.get "/" "HTTP/1.1" in
  let h := state_of (RequestHandlerClass Demo.lib Demo.root Demo.fs
                       (Demo.conn "GET / HTTP/1.1")) in
  exists (code : nat) (msg : option string) (hdrs : list string)
         (tail : list chunk),
    wfile h = Head (status_text Demo.lib code msg :: hdrs ++ cors_lines ++ [Py.CRLF])
              :: tail
    /\ (tail = [] \/ exists b, tail = [Body b])
    /\ (rq_command r = "HEAD" -> tail = []).
Proof.
  apply (reply_is_header_block_then_body Demo.lib Demo.root Demo.fs
           (Demo.conn "GET / HTTP/1.1") (Demo.get "/" "HTTP/1.1")).
  - vm_compute. reflexivity.
  - intros H. discriminate H.
  - vm_compute. reflexivity.
Defined.

(** ** Replies to HTTP/0.9 requests *)

Section Simple09.
Variable lib : stdlib.
Variable fs : filesystem.

Let eh := MyHTTPRequestHandler.end_headers.

(** What [send_head] may have written for an HTTP/0.9 request: nothing, or,
    when it returns no file, an error page. *)
Let quiet (h : handler) (r : result (option string)) : Prop :=
  match r with
  | Ok (Some _) h' => wfile h' = wfile h
  | Ok None h' => wfile h' = wfile h \/ exists b, wfile h' = (wfile h ++ [Body b])%list
  | Raise _ h' => wfile h' = wfile h
  end.

Lemma quiet_send_error (code : nat) (m : string) (explain : option string)
      (h : handler) :
  is_09 h = true ->
  quiet h (Ok None (send_error lib eh code (Some m) explain h)).
Proof.
  intros H9. cbn [quiet].
  destruct (send_error_wfile lib code m explain h) as (hdrs & tail & E & Ht & _).
  rewrite H9 in E. cbn [app] in E.
  destruct Ht as [-> | [b ->]].
  - left. now rewrite app_nil_r in E.
  - right. now exists b.
Qed.

Lemma quiet_list_directory (p : string) (h : handler) :
  is_09 h = true ->
  quiet h (SimpleHTTPRequestHandler.list_directory lib eh fs p h).
Proof.
  intros H9. unfold SimpleHTTPRequestHandler.list_directory.
  destruct (listdir fs p) as [names |]; [| now apply quiet_send_error].
  cbn [quiet]. unfold eh. autorewrite with handler. now rewrite H9.
Qed.

Lemma quiet_send_file (p : string) (h : handler) :
  is_09 h = true ->
  quiet h (SimpleHTTPRequestHandler.send_file lib eh fs p h).
Proof.
  intros H9. unfold SimpleHTTPRequestHandler.send_file. cbv zeta.
  destruct (Py.endswith "/" p); [now apply quiet_send_error |].
  destruct (open_rb fs p) as [fl | |];
    [| now apply quiet_send_error | reflexivity].
  match goal with |- context [if ?c then _ else _] => destruct c end;
    cbn [quiet]; unfold eh; autorewrite with handler; rewrite H9; auto.
Qed.

Lemma quiet_send_head (h : handler) :
  is_09 h = true ->
  quiet h (SimpleHTTPRequestHandler.send_head lib eh fs h).
Proof.
  intros H9. unfold SimpleHTTPRequestHandler.send_head. cbv zeta.
  destruct (isdir fs _); [| now apply quiet_send_file].
  destruct (negb _).
  - cbn [quiet]. unfold eh. autorewrite with handler. rewrite H9. auto.
  - destruct (isfile fs _); [now apply quiet_send_file |].
    destruct (isfile fs _); [now apply quiet_send_file |].
    now apply quiet_list_directory.
Qed.

(** The reply of a method to an HTTP/0.9 request: nothing or one body. *)
Lemma quiet_handle_one_request (h : handler) :
  is_09 h = true -> wfile h = [] ->
  wfile (state_of (MyHTTPRequestHandler.handle_one_request lib fs h)) = []
  \/ exists b,
      wfile (state_of (MyHTTPRequestHandler.handle_one_request lib fs h))
      = [Body b].
Proof.
  intros H90 Hw0.
  assert (H91 : is_09 (MyHTTPRequestHandler.rewrite_path h) = true).
  { destruct (rewrite_path_fields h) as (_ & _ & H9 & _). now rewrite H9. }
  assert (Hw1 : wfile (MyHTTPRequestHandler.rewrite_path h) = []).
  { destruct (rewrite_path_fields h) as (Hw & _). now rewrite Hw. }
  unfold MyHTTPRequestHandler.handle_one_request,
    handle_one_request, MyHTTPRequestHandler.getattr,
    SimpleHTTPRequestHandler.getattr.
  cbv zeta.
  destruct ("do_" ++ command h =? "do_GET").
  - unfold MyHTTPRequestHandler.do_GET, SimpleHTTPRequestHandler.do_GET. cbv zeta.
    pose proof (quiet_send_head _ H91) as Hq.
    destruct (SimpleHTTPRequestHandler.send_head lib _ fs _) as [[f |] h1 | e h1];
      cbn [state_of quiet] in *; rewrite Hw1 in Hq.
    + unfold SimpleHTTPRequestHandler.copyfile.
      destruct (Py.truthy f); [right; exists f; now rewrite write_wfile, Hq |].
      now left.
    + exact Hq.
    + now left.
  - destruct ("do_" ++ command h =? "do_HEAD").
    + unfold SimpleHTTPRequestHandler.do_HEAD.
      pose proof (quiet_send_head _ H90) as Hq.
      destruct (SimpleHTTPRequestHandler.send_head lib _ fs _) as [[f |] h1 | e h1];
        cbn [state_of quiet] in *; rewrite Hw0 in Hq;
        [now left | exact Hq | now left].
    + cbn [state_of].
      match goal with
      | |- context [send_error lib _ 501 (Some ?m) None ?h0] =>
          pose proof (quiet_send_error 501 m None h0 H90) as Hq
      end.
      cbn [quiet] in Hq. rewrite Hw0 in Hq. exact Hq.
Qed.


End Simple09.

(** X2: the reply to an HTTP/0.9 request never has a header block, whatever
    the command and the path: it is empty or one body (the file, the
    directory listing or the error page), so it has no status line and none
    of the CORS headers. *)
Theorem simple_request_reply_is_body_only
        (lib : stdlib) (dir : string) (fs : filesystem) (r : request) :
  rq_version r = "HTTP/0.9" ->
  wfile (handled lib dir fs r) = []
  \/ exists b, wfile (handled lib dir fs r) = [Body b].
Proof.
  intros Hv. unfold handled, dispatched.
  apply quiet_handle_one_request; [now apply is_09_true | reflexivity].
Qed.

Lemma simple_request_reply_is_body_only_witness :
  let r := Demo.get "/nope.css" "HTTP/0.9" in
  wfile (handled Demo.lib Demo.root Demo.fs r) = []
  \/ exists b, wfile (handled Demo.lib Demo.root Demo.fs r) = [Body b].
Proof.
  apply (simple_request_reply_is_body_only Demo.lib Demo.root Demo.fs
           (Demo.get "/nope.css" "HTTP/0.9")).
  reflexivity.
Defined.

(** ** CORS headers on the replies (lines 12-17) *)






(** ** Files that exist *)

Lemma append_empty_r (s : string) : s ++ "" = s.
Proof. induction s as [| a s IH]; cbn; [reflexivity | now rewrite IH]. Qed.

Lemma append_assoc_r (a b c : string) : (a ++ b) ++ c = a ++ b ++ c.
Proof. induction a as [| x a IH]; cbn; [reflexivity | now rewrite IH]. Qed.

(** X3: a GET that [parse_request] accepts and whose path leads to a file
    that can be opened, without [If-Modified-Since], is answered 200: the
    header block gives the date of the reply, the type guessed from the
    name, the length of the file and its modification date, then the CORS
    headers; the body is the file's bytes, all of them and nothing else.  An
    HTTP/0.9 request gets the bytes alone. *)
Theorem existing_file_is_served
        (lib : stdlib) (dir : string) (fs : filesystem) (c : connection)
        (r : request) (f : file) :
  parsed lib dir c = Some r ->
  rq_command r = "GET" ->
  isdir fs
    (SimpleHTTPRequestHandler.translate_path lib
       (MyHTTPRequestHandler.rewrite_path (new_handler dir r))
       (path (MyHTTPRequestHandler.rewrite_path (new_handler dir r))))
  = false ->
  Py.endswith "/"
    (SimpleHTTPRequestHandler.translate_path lib
       (MyHTTPRequestHandler.rewrite_path (new_handler dir r))
       (path (MyHTTPRequestHandler.rewrite_path (new_handler dir r))))
  = false ->
  open_rb fs
    (SimpleHTTPRequestHandler.translate_path lib
       (MyHTTPRequestHandler.rewrite_path (new_handler dir r))
       (path (MyHTTPRequestHandler.rewrite_path (new_handler dir r))))
  = Opened f ->
  SimpleHTTPRequestHandler.get_header "If-Modified-Since"
    (MyHTTPRequestHandler.rewrite_path (new_handler dir r)) = None ->
  exists h : handler,
    RequestHandlerClass lib dir fs c = Ok tt h /\
    wfile h
    = ((if rq_version r =? "HTTP/0.9" then []
        else [Head [ status_text lib 200 None;
                     header_line "Server" (version_string lib);
                     header_line "Date" (formatdate lib (conn_time c));
                     header_line "Content-type"
                       (guess_type lib
                          (SimpleHTTPRequestHandler.translate_path lib
                             (MyHTTPRequestHandler.rewrite_path (new_handler dir r))
                             (path (MyHTTPRequestHandler.rewrite_path
                                      (new_handler dir r)))));
                     header_line "Content-Length" (Py.str (Py.len (content f)));
                     header_line "Last-Modified" (formatdate lib (st_mtime f));
                     header_line "Access-Control-Allow-Origin" "*";
                     header_line "Access-Control-Allow-Methods" "GET, POST, OPTIONS";
                     header_line "Access-Control-Allow-Headers" "Content-Type";
                     Py.CRLF ]])
       ++ (if Py.truthy (content f) then [Body (content f)] else []))%list /\
    body_of (wfile h) = content f.
Proof.
  intros Hp Hc Hdir Hslash Hopen Hims.
  pose proof (parsed_spec lib dir c r Hp) as (_ & Htime & _).
  rewrite <- Htime.
  set (h0 := MyHTTPRequestHandler.rewrite_path (new_handler dir r)) in *.
  assert (H0 : wfile h0 = [] /\ headers_buffer h0 = []
               /\ is_09 h0 = (rq_version r =? "HTTP/0.9")
               /\ clock h0 = rq_time r).
  { destruct (rewrite_path_fields (new_handler dir r)) as (Hw & Hb & H9 & _).
    unfold h0. rewrite Hw, Hb, H9, rewrite_path_clock. repeat split. }
  destruct H0 as (Hw0 & Hb0 & H90 & Hck).
  eexists. split; [| split].
  - rewrite (handle_parsed lib dir fs c r Hp).
    unfold dispatched, MyHTTPRequestHandler.handle_one_request,
      handle_one_request, MyHTTPRequestHandler.getattr.
    cbv zeta. cbn [new_handler command]. rewrite Hc.
    change ("do_" ++ "GET" =? "do_GET") with true. cbv iota.
    unfold MyHTTPRequestHandler.do_GET. cbv zeta. fold h0.
    unfold SimpleHTTPRequestHandler.do_GET, SimpleHTTPRequestHandler.send_head.
    cbv zeta. rewrite Hdir.
    unfold SimpleHTTPRequestHandler.send_file. cbv zeta.
    rewrite Hslash, Hopen, Hims. reflexivity.
  - unfold SimpleHTTPRequestHandler.copyfile.
    destruct (Py.truthy (content f)); autorewrite with handler;
      unfold date_time_string; autorewrite with handler;
      rewrite Hw0, Hb0, H90, ?Hck; destruct (rq_version r =? "HTTP/0.9");
      reflexivity.
  - unfold SimpleHTTPRequestHandler.copyfile.
    destruct (Py.truthy (content f)) eqn:Et; autorewrite with handler;
      rewrite Hw0, Hb0, H90; destruct (rq_version r =? "HTTP/0.9");
      cbn [app body_of]; rewrite ?append_empty_r; try reflexivity.
    all: destruct (content f); [reflexivity | discriminate].
Qed.

Lemma existing_file_is_served_witness :
  let c := Demo.conn "GET /index.html HTTP/1.1" in
  exists h : handler,
    RequestHandlerClass Demo.lib Demo.root Demo.fs c = Ok tt h /\
    wfile h
    = [Head [ status_text Demo.lib 200 None;
              header_line "Server" (version_string Demo.lib);
              header_line "Date" (formatdate Demo.lib 5);
              header_line "Content-type" "text/html";
              header_line "Content-Length" "17";
              header_line "Last-Modified" (formatdate Demo.lib 0);
              header_line "Access-Control-Allow-Origin" "*";
              header_line "Access-Control-Allow-Methods" "GET, POST, OPTIONS";
              header_line "Access-Control-Allow-Headers" "Content-Type";
              Py.CRLF ];
       Body "<html>demo</html>"] /\
    body_of (wfile h) = "<html>demo</html>".
Proof.
  apply (existing_file_is_served Demo.lib Demo.root Demo.fs
           (Demo.conn "GET /index.html HTTP/1.1")
           (Demo.get "/index.html" "HTTP/1.1") Demo.index_html);
    vm_compute; reflexivity.
Defined.

(** ** The root without an index file *)

Lemma body_of_app (a b : list chunk) :
  body_of (a ++ b)%list = body_of a ++ body_of b.
Proof.
  induction a as [| c a IH]; cbn [app body_of]; [reflexivity |].
  destruct c; [exact IH |]. rewrite IH.
  clear. induction data as [| x s IH]; cbn; [reflexivity | now rewrite IH].
Qed.

(** X4: the rewrite changes what [/] gives when the served directory has no
    [index.html].  The base class alone would answer a GET for [/] with 200
    and the listing of the directory; the script's [do_GET] asks for
    [/index.html] and answers 404, so the root directory is not listed. *)
Theorem root_without_index_is_404_not_listing
        (lib : stdlib) (dir : string) (fs : filesystem)
        (version : string) (hdrs : list (string * string)) (now : nat)
        (names : list string) :
  isdir fs
    (SimpleHTTPRequestHandler.translate_path lib
       (new_handler dir (mkRequest "GET" "/" version hdrs now)) "/") = true ->
  Py.endswith "/" (urlsplit_path lib "/") = true ->
  isfile fs
    (posixpath.join
       (SimpleHTTPRequestHandler.translate_path lib
          (new_handler dir (mkRequest "GET" "/" version hdrs now)) "/")
       "index.html") = false ->
  isfile fs
    (posixpath.join
       (SimpleHTTPRequestHandler.translate_path lib
          (new_handler dir (mkRequest "GET" "/" version hdrs now)) "/")
       "index.htm") = false ->
  listdir fs
    (SimpleHTTPRequestHandler.translate_path lib
       (new_handler dir (mkRequest "GET" "/" version hdrs now)) "/") = Some names ->
  isdir fs
    (SimpleHTTPRequestHandler.translate_path lib
       (new_handler dir (mkRequest "GET" "/" version hdrs now)) "/index.html") = false ->
  open_rb fs
    (SimpleHTTPRequestHandler.translate_path lib
       (new_handler dir (mkRequest "GET" "/" version hdrs now)) "/index.html")
  = OpenOSError ->
  (exists hb : handler,
      SimpleHTTPRequestHandler.do_GET lib MyHTTPRequestHandler.end_headers fs
        (new_handler dir (mkRequest "GET" "/" version hdrs now)) = Ok tt hb /\
      log hb = [LogRequest 200] /\
      body_of (wfile hb)
      = listing_page lib fs "/"
          (SimpleHTTPRequestHandler.translate_path lib
             (new_handler dir (mkRequest "GET" "/" version hdrs now)) "/") names)
  /\ exists hs : handler,
      MyHTTPRequestHandler.do_GET lib fs
        (new_handler dir (mkRequest "GET" "/" version hdrs now)) = Ok tt hs /\
      log hs = [LogError 404 "File not found"; LogRequest 404] /\
      (forall lines, In (Head lines) (wfile hs) ->
                     In (status_text lib 404 (Some "File not found")) lines).
Proof.
  intros Hroot Hurl Hi1 Hi2 Hls Hidx Hopen.
  set (h := new_handler dir (mkRequest "GET" "/" version hdrs now)) in *.
  split.
  - eexists. split; [| split].
    + unfold SimpleHTTPRequestHandler.do_GET, SimpleHTTPRequestHandler.send_head.
      cbv zeta. change (path h) with "/". rewrite Hroot, Hurl. cbn [negb].
      rewrite Hi1, Hi2.
      unfold SimpleHTTPRequestHandler.list_directory. rewrite Hls.
      change (path h) with "/". reflexivity.
    + unfold SimpleHTTPRequestHandler.copyfile.
      destruct (Py.truthy _); autorewrite with handler; reflexivity.
    + unfold SimpleHTTPRequestHandler.copyfile.
      destruct (Py.truthy _) eqn:Et; autorewrite with handler;
        change (wfile h) with (@nil chunk); cbn [app];
        destruct (is_09 h); cbn [app body_of]; rewrite ?append_empty_r;
        try reflexivity.
      all: destruct (listing_page _ _ _ _ _); [reflexivity | discriminate].
  - exists (send_error lib MyHTTPRequestHandler.end_headers 404
              (Some "File not found") None (set_path "/index.html" h)).
    split; [| split].
    + unfold MyHTTPRequestHandler.do_GET. cbv zeta.
      change (MyHTTPRequestHandler.rewrite_path h) with (set_path "/index.html" h).
      unfold SimpleHTTPRequestHandler.do_GET, SimpleHTTPRequestHandler.send_head.
      cbv zeta. change (path (set_path "/index.html" h)) with "/index.html".
      change (SimpleHTTPRequestHandler.translate_path lib
                (set_path "/index.html" h) "/index.html")
        with (SimpleHTTPRequestHandler.translate_path lib h "/index.html").
      rewrite Hidx. unfold SimpleHTTPRequestHandler.send_file. cbv zeta.
      destruct (Py.endswith "/"
                  (SimpleHTTPRequestHandler.translate_path lib h "/index.html"));
        [reflexivity |].
      rewrite Hopen. reflexivity.
    + rewrite send_error_log. reflexivity.
    + intros lines Hin.
      destruct (send_error_wfile lib 404 "File not found" None
                  (set_path "/index.html" h)) as (hd & tail & E & Ht & _).
      rewrite E in Hin. change (wfile (set_path "/index.html" h)) with (@nil chunk) in Hin.
      change (headers_buffer (set_path "/index.html" h)) with (@nil string) in Hin.
      cbn [app] in Hin.
      destruct (is_09 _); cbn [app In] in Hin.
      * destruct Ht as [-> | [b ->]]; cbn [In] in Hin;
          [contradiction | destruct Hin as [Hin | []]; discriminate].
      * destruct Hin as [Hin | Hin].
        -- inversion Hin; subst. now left.
        -- destruct Ht as [-> | [b ->]]; cbn [In] in Hin;
             [contradiction | destruct Hin as [Hin | []]; discriminate].
Qed.

Lemma root_without_index_is_404_not_listing_witness :
  (exists hb : handler,
      SimpleHTTPRequestHandler.do_GET Demo.lib MyHTTPRequestHandler.end_headers
        Demo.bare_fs
        (new_handler Demo.root (mkRequest "GET" "/" "HTTP/1.1" [] 5)) = Ok tt hb /\
      log hb = [LogRequest 200] /\
      body_of (wfile hb)
      = listing_page Demo.lib Demo.bare_fs "/"
          (SimpleHTTPRequestHandler.translate_path Demo.lib
             (new_handler Demo.root (mkRequest "GET" "/" "HTTP/1.1" [] 5)) "/")
          ["style.css"])
  /\ exists hs : handler,
      MyHTTPRequestHandler.do_GET Demo.lib Demo.bare_fs
        (new_handler Demo.root (mkRequest "GET" "/" "HTTP/1.1" [] 5)) = Ok tt hs /\
      log hs = [LogError 404 "File not found"; LogRequest 404] /\
      (forall lines, In (Head lines) (wfile hs) ->
                     In (status_text Demo.lib 404 (Some "File not found")) lines).
Proof.
  apply (root_without_index_is_404_not_listing Demo.lib Demo.root Demo.bare_fs
           "HTTP/1.1" [] 5 ["style.css"]);
    reflexivity.
Defined.

(** ** Exceptions other than [OSError] *)

(** X5: when [open] raises something that is not an [OSError] (a NUL
    character in the name gives [ValueError]), [do_GET] does not catch it:
    the connection of a GET that [parse_request] has accepted gets no byte,
    not even the CORS headers.  The server catches it, writes a traceback
    and goes on with the next event. *)
Theorem uncaught_open_error_gives_no_reply
        (lib : stdlib) (c : connection) (r : request) (w : world)
        (rest : list event) :
  parsed lib (cwd w) c = Some r ->
  rq_command r = "GET" ->
  isdir (fs w)
    (SimpleHTTPRequestHandler.translate_path lib
       (MyHTTPRequestHandler.rewrite_path (new_handler (cwd w) r))
       (path (MyHTTPRequestHandler.rewrite_path (new_handler (cwd w) r))))
  = false ->
  Py.endswith "/"
    (SimpleHTTPRequestHandler.translate_path lib
       (MyHTTPRequestHandler.rewrite_path (new_handler (cwd w) r))
       (path (MyHTTPRequestHandler.rewrite_path (new_handler (cwd w) r))))
  = false ->
  open_rb (fs w)
    (SimpleHTTPRequestHandler.translate_path lib
       (MyHTTPRequestHandler.rewrite_path (new_handler (cwd w) r))
       (path (MyHTTPRequestHandler.rewrite_path (new_handler (cwd w) r))))
  = OpenValueError ->
  RequestHandlerClass lib (cwd w) (fs w) c
  = Raise ValueError (MyHTTPRequestHandler.rewrite_path (new_handler (cwd w) r))
  /\ reply lib (cwd w) (fs w) c = []
  /\ TCPServer.serve_forever (RequestHandlerClass lib) (Connection c :: rest) w
     = TCPServer.serve_forever (RequestHandlerClass lib) rest
         (record (Traceback ValueError)
            (record (Served (MyHTTPRequestHandler.rewrite_path
                               (new_handler (cwd w) r))) w)).
Proof.
  intros Hp Hc Hdir Hslash Hopen.
  assert (Hrun : RequestHandlerClass lib (cwd w) (fs w) c
                 = Raise ValueError
                     (MyHTTPRequestHandler.rewrite_path (new_handler (cwd w) r))).
  { rewrite (handle_parsed lib (cwd w) (fs w) c r Hp).
    unfold dispatched, MyHTTPRequestHandler.handle_one_request,
      handle_one_request, MyHTTPRequestHandler.getattr.
    cbv zeta. cbn [new_handler command]. rewrite Hc.
    change ("do_" ++ "GET" =? "do_GET") with true. cbv iota.
    unfold MyHTTPRequestHandler.do_GET. cbv zeta.
    unfold SimpleHTTPRequestHandler.do_GET, SimpleHTTPRequestHandler.send_head.
    cbv zeta. rewrite Hdir.
    unfold SimpleHTTPRequestHandler.send_file. cbv zeta.
    rewrite Hslash, Hopen. reflexivity. }
  split; [exact Hrun |]. split.
  - unfold reply, answered. rewrite Hrun. cbn [state_of].
    now destruct (rewrite_path_fields (new_handler (cwd w) r)) as (Hw & _).
  - cbn [TCPServer.serve_forever]. unfold TCPServer.handle_request_noblock.
    rewrite Hrun. reflexivity.
Qed.

Lemma uncaught_open_error_gives_no_reply_witness :
  let c := Demo.conn ("GET /a" ++ Demo.NUL ++ "b HTTP/1.0") in
  let r := mkRequest "GET" ("/a" ++ Demo.NUL ++ "b") "HTTP/1.0" [] 5 in
  let w := mkWorld Demo.root Demo.bare_fs Listening [] in
  RequestHandlerClass Demo.lib (cwd w) (fs w) c
  = Raise ValueError (MyHTTPRequestHandler.rewrite_path (new_handler (cwd w) r))
  /\ reply Demo.lib (cwd w) (fs w) c = []
  /\ TCPServer.serve_forever (RequestHandlerClass Demo.lib)
       (Connection c :: [Sigint]) w
     = TCPServer.serve_forever (RequestHandlerClass Demo.lib) [Sigint]
         (record (Traceback ValueError)
            (record (Served (MyHTTPRequestHandler.rewrite_path
                               (new_handler (cwd w) r))) w)).
Proof.
  apply (uncaught_open_error_gives_no_reply Demo.lib
           (Demo.conn ("GET /a" ++ Demo.NUL ++ "b HTTP/1.0"))
           (mkRequest "GET" ("/a" ++ Demo.NUL ++ "b") "HTTP/1.0" [] 5)
           (mkWorld Demo.root Demo.bare_fs Listening []) [Sigint]);
    vm_compute; reflexivity.
Defined.

(** ** The process *)

(** X6: the process ends in two ways only.  It dies of the uncaught
    [OSError] when the socket cannot be bound, before any connection is
    served; it exits with status 0 when Ctrl+C arrives.  Otherwise it keeps
    listening; no request ends it and no other exit status occurs. *)
Theorem process_ends_by_interrupt_or_bind_failure
        (lib : stdlib) (file : string) (bind_ok : bool) (events : list event)
        (w : world) :
  match main lib file bind_ok events w with
  | Running w' =>
      bind_ok = true /\ interrupted events = false /\ socket w' = Listening
  | Exited code w' =>
      code = 0 /\ bind_ok = true /\ interrupted events = true /\ socket w' = Closed
  | Died e w' =>
      e = OSError /\ bind_ok = false /\ socket w' = Closed /\ served w' = served w
  end.
Proof.
  rewrite main_run. destruct bind_ok; cbv zeta.
  - match goal with
    | |- context [serve_all lib ?rs ?w0] =>
        destruct (serve_all_spec lib rs w0) as (_ & _ & Hs & _)
    end.
    destruct (interrupted events); repeat split. exact Hs.
  - repeat split. unfold served, started, print, chdir, record, set_socket.
    cbn [trace]. rewrite !served_of_app. cbn [served_of]. now rewrite !app_nil_r.
Qed.

(** X7: the only output on [sys.stdout] is the two start-up lines and, after
    Ctrl+C, the stop line; serving requests prints nothing there. *)
Theorem stdout_is_startup_and_stop_lines
        (lib : stdlib) (file : string) (bind_ok : bool) (events : list event)
        (w : world) :
  stdout (world_of (main lib file bind_ok events w))
  = stdout w
    ++ ("Starting server at http://localhost:8000" ++ Py.NL)
    ++ ("Press Ctrl+C to stop" ++ Py.NL)
    ++ (if bind_ok && interrupted events
        then Py.NL ++ "Server stopped." ++ Py.NL else "").
Proof.
  rewrite main_run. destruct bind_ok; cbv zeta; cbn [andb].
  - match goal with
    | |- context [serve_all lib ?rs ?w0] =>
        destruct (serve_all_spec lib rs w0) as (_ & _ & _ & t & Ht & Ho & _);
        set (wa := serve_all lib rs w0) in *
    end.
    destruct (interrupted events); unfold stdout;
      unfold TCPServer.server_close, print, record, set_socket;
      cbn [world_of trace]; rewrite Ht;
      unfold started, print, chdir, record, set_socket; cbn [trace];
      rewrite !stdout_of_app, Ho; cbn [stdout_of];
      rewrite ?append_empty_r, !append_assoc_r; reflexivity.
  - unfold stdout, started, print, chdir, record, set_socket.
    cbn [world_of trace]. rewrite !stdout_of_app. cbn [stdout_of].
    rewrite ?append_empty_r, !append_assoc_r. reflexivity.
Qed.

(** ** One connection after the other *)

Lemma directory_answered (lib : stdlib) (dir : string) (fs : filesystem)
      (c : connection) :
  directory (answered lib dir fs c) = dir.
Proof. unfold answered. apply handle_replies. Qed.

Lemma serve_one_served (lib : stdlib) (w : world) (c : connection) :
  served (serve_one lib w c)
  = (served w ++ [answered lib (cwd w) (fs w) c])%list.
Proof.
  unfold serve_one, TCPServer.handle_request_noblock, answered, served.
  destruct (RequestHandlerClass lib (cwd w) (fs w) c) as [u h | e h];
    [| destruct (is_Exception e)];
    cbn [snd state_of]; unfold record; cbn [trace];
    rewrite ?served_of_app; cbn [served_of]; rewrite ?app_nil_r; reflexivity.
Qed.

(** The connections are served one by one in the order of arrival, each by
    a handler of its own. *)
Lemma serve_all_served (lib : stdlib) (cs : list connection) (w : world) :
  served (serve_all lib cs w)
  = (served w ++ map (answered lib (cwd w) (fs w)) cs)%list.
Proof.
  revert w. induction cs as [| c cs IH]; intros w; cbn [serve_all fold_left map].
  - now rewrite app_nil_r.
  - fold (serve_all lib cs (serve_one lib w c)). rewrite IH, serve_one_served.
    destruct (serve_one_spec lib w c) as (Hc & Hf & _).
    rewrite Hc, Hf, <- app_assoc. reflexivity.
Qed.

(** ** The served directory *)

Lemma startswith_slash (x : string) : Py.startswith "/" (String "/" x) = true.
Proof.
  unfold Py.startswith. cbn [String.prefix].
  destruct (ascii_dec "/" "/"); [now destruct x | congruence].
Qed.

Lemma startswith_slash_inv (s : string) :
  Py.startswith "/" s = true -> exists x, s = String "/" x.
Proof.
  destruct s as [| a r]; [discriminate |].
  unfold Py.startswith. cbn [String.prefix].
  destruct (ascii_dec "/" a) as [<- | Hne]; [| discriminate].
  intros _. now exists r.
Qed.

Lemma normpath_absolute (p : string) :
  Py.startswith "/" p = true -> Py.startswith "/" (posixpath.normpath p) = true.
Proof.
  intros Hp. destruct (startswith_slash_inv p Hp) as [x ->].
  unfold posixpath.normpath. cbn [Py.truthy negb]. cbv zeta. rewrite Hp.
  destruct (Py.startswith "//" _ && _);
    cbn [String.append Py.truthy]; apply startswith_slash.
Qed.

Lemma head_absolute (p : string) :
  Py.startswith "/" p = true -> Py.startswith "/" (posixpath.head p) = true.
Proof.
  intros Hp. destruct (startswith_slash_inv p Hp) as [x ->].
  cbn [posixpath.head].
  destruct (posixpath.head x).
  - change (Ascii.eqb "/" posixpath.sep) with true. cbv iota.
    apply startswith_slash.
  - apply startswith_slash.
Qed.

Lemma rstrip_absolute (s : string) :
  Py.startswith "/" s = true -> posixpath.all_sep s = false ->
  Py.startswith "/" (Py.rstrip posixpath.sep s) = true.
Proof.
  intros Hs Ha. pose proof (rstrip_nonempty s Ha) as Hn.
  destruct (startswith_slash_inv s Hs) as [x ->].
  cbn [Py.rstrip] in *.
  destruct (Py.rstrip posixpath.sep x); [| apply startswith_slash].
  exfalso. apply Hn. reflexivity.
Qed.

Lemma dirname_absolute (p : string) :
  Py.startswith "/" p = true -> Py.startswith "/" (posixpath.dirname p) = true.
Proof.
  intros Hp. apply head_absolute in Hp. unfold posixpath.dirname. cbv zeta.
  destruct (Py.truthy _ && negb (posixpath.all_sep (posixpath.head p))) eqn:E;
    [| exact Hp].
  apply andb_true_iff in E. destruct E as [_ E]. apply negb_true_iff in E.
  now apply rstrip_absolute.
Qed.

(** X9: line 26 makes the served directory independent of where the script
    is started.  When [__file__] is absolute, the process ends up in the
    directory of the normalised [__file__], an absolute path, whatever its
    directory was before, and every handler serves from there. *)
Theorem served_directory_is_that_of_the_script
        (lib : stdlib) (file : string) (bind_ok : bool) (events : list event)
        (w : world) :
  posixpath.isabs file = true ->
  cwd (world_of (main lib file bind_ok events w))
  = posixpath.dirname (posixpath.normpath file)
  /\ Py.startswith "/" (posixpath.dirname (posixpath.normpath file)) = true
  /\ forall h : handler,
      In h (served (world_of (main lib file bind_ok events w))) ->
      In h (served w) \/ directory h = posixpath.dirname (posixpath.normpath file).
Proof.
  intros Habs.
  assert (Hd : posixpath.dirname (posixpath.abspath (cwd w) file)
               = posixpath.dirname (posixpath.normpath file)).
  { unfold posixpath.abspath. now rewrite Habs. }
  split; [| split].
  - rewrite main_run. destruct bind_ok; cbv zeta.
    + match goal with
      | |- context [serve_all lib ?rs ?w0] =>
          destruct (serve_all_spec lib rs w0) as (Hc & _);
          set (wa := serve_all lib rs w0) in *
      end.
      destruct (interrupted events); cbn [world_of];
        unfold TCPServer.server_close, print, record, set_socket; cbn [cwd];
        rewrite Hc; unfold started, print, chdir, record, set_socket;
        cbn [cwd]; exact Hd.
    + cbn [world_of]. unfold started, print, chdir, record, set_socket.
      cbn [cwd]. exact Hd.
  - apply dirname_absolute, normpath_absolute. exact Habs.
  - intros h Hin.
    assert (E : served (world_of (main lib file bind_ok events w))
                = (served w
                   ++ if bind_ok
                      then map (answered lib
                                  (posixpath.dirname
                                     (posixpath.abspath (cwd w) file)) (fs w))
                               (accepted events)
                      else [])%list).
    { rewrite main_run. destruct bind_ok; cbv zeta.
      - assert (E : served (serve_all lib (accepted events)
                              (set_socket Listening
                                 (record Listen
                                    (record (Bind "" PORT) (started file w)))))
                    = (served w
                       ++ map (answered lib
                                 (posixpath.dirname
                                    (posixpath.abspath (cwd w) file)) (fs w))
                              (accepted events))%list).
        { rewrite serve_all_served. f_equal.
          unfold served, started, print, chdir, record, set_socket. cbn [trace].
          rewrite !served_of_app. cbn [served_of]. now rewrite !app_nil_r. }
        destruct (interrupted events); cbn [world_of]; [| exact E].
        rewrite <- E.
        match goal with
        | |- context [serve_all lib ?rs ?w0] => set (wa := serve_all lib rs w0)
        end.
        unfold served, TCPServer.server_close, print, record, set_socket.
        cbn [trace]. rewrite !served_of_app. cbn [served_of].
        now rewrite !app_nil_r.
      - cbn [world_of]. unfold served, started, print, chdir, record, set_socket.
        cbn [trace]. rewrite !served_of_app. cbn [served_of].
        now rewrite !app_nil_r. }
    rewrite E in Hin. apply in_app_or in Hin. destruct Hin as [Hin | Hin];
      [now left | right].
    destruct bind_ok; [| contradiction].
    apply in_map_iff in Hin. destruct Hin as (r & <- & _).
    rewrite directory_answered. exact Hd.
Qed.

Lemma served_directory_is_that_of_the_script_witness :
  cwd (world_of (main Demo.lib Demo.script true
                      [Connection (Demo.conn "GET / HTTP/1.1"); Sigint] Demo.world0))
  = posixpath.dirname (posixpath.normpath Demo.script)
  /\ Py.startswith "/" (posixpath.dirname (posixpath.normpath Demo.script)) = true
  /\ forall h : handler,
      In h (served (world_of (main Demo.lib Demo.script true
                                   [Connection (Demo.conn "GET / HTTP/1.1"); Sigint]
                                   Demo.world0))) ->
      In h (served Demo.world0)
      \/ directory h = posixpath.dirname (posixpath.normpath Demo.script).
Proof.
  apply (served_directory_is_that_of_the_script Demo.lib Demo.script true
           [Connection (Demo.conn "GET / HTTP/1.1"); Sigint] Demo.world0).
  reflexivity.
Defined.

(** ** Methods the script does not have *)

(** X10: a request that [parse_request] accepts with a command other than
    GET and HEAD (POST, OPTIONS, ...) and a version other than HTTP/0.9 is
    answered 501, and the same header block carries
    [Access-Control-Allow-Methods: GET, POST, OPTIONS]: the methods the
    CORS header names are not all served.  The block ends with the CORS
    headers and gives the length of the error page, which is the body. *)
Theorem unsupported_method_is_501_with_cors
        (lib : stdlib) (dir : string) (fs : filesystem) (c : connection)
        (r : request) :
  parsed lib dir c = Some r ->
  rq_command r <> "GET" ->
  rq_command r <> "HEAD" ->
  rq_version r <> "HTTP/0.9" ->
  exists h : handler,
    RequestHandlerClass lib dir fs c = Ok tt h /\
    wfile h
    = Head [ status_text lib 501
               (Some ("Unsupported method (" ++ repr lib (rq_command r) ++ ")"));
             header_line "Server" (version_string lib);
             header_line "Date" (formatdate lib (conn_time c));
             header_line "Connection" "close";
             header_line "Content-Type" "text/html;charset=utf-8";
             header_line "Content-Length"
               (Py.str
                  (Py.len
                     (error_page lib 501
                        ("Unsupported method (" ++ repr lib (rq_command r) ++ ")")
                        (snd match responses lib 501 with
                             | Some sl => sl
                             | None => ("???", "???")
                             end))));
             header_line "Access-Control-Allow-Origin" "*";
             header_line "Access-Control-Allow-Methods" "GET, POST, OPTIONS";
             header_line "Access-Control-Allow-Headers" "Content-Type";
             Py.CRLF ]
      :: (if Py.truthy
               (error_page lib 501
                  ("Unsupported method (" ++ repr lib (rq_command r) ++ ")")
                  (snd match responses lib 501 with
                       | Some sl => sl
                       | None => ("???", "???")
                       end))
          then [Body (error_page lib 501
                        ("Unsupported method (" ++ repr lib (rq_command r) ++ ")")
                        (snd match responses lib 501 with
                             | Some sl => sl
                             | None => ("???", "???")
                             end))]
          else []).
Proof.
  intros Hp Hg Hh Hv.
  pose proof (parsed_spec lib dir c r Hp) as (_ & Htime & _).
  rewrite <- Htime.
  apply String.eqb_neq in Hg. apply String.eqb_neq in Hh.
  assert (H9 : (rq_version r =? "HTTP/0.9") = false) by now apply String.eqb_neq.
  eexists. split.
  - rewrite (handle_parsed lib dir fs c r Hp).
    unfold dispatched, MyHTTPRequestHandler.handle_one_request,
      handle_one_request, MyHTTPRequestHandler.getattr,
      SimpleHTTPRequestHandler.getattr.
    cbv zeta.
    change ("do_" ++ command (new_handler dir r) =? "do_GET")
      with (rq_command r =? "GET").
    change ("do_" ++ command (new_handler dir r) =? "do_HEAD")
      with (rq_command r =? "HEAD").
    rewrite Hg, Hh. reflexivity.
  - unfold send_error. cbv zeta.
    change ((200 <=? 501)%nat
            && negb ((501 =? 204)%nat || (501 =? 205)%nat || (501 =? 304)%nat))
      with true.
    cbv iota.
    match goal with
    | |- context [if negb (command ?x =? "HEAD") && _ then _ else _] =>
        assert (Hc : command x = rq_command r) by (now autorewrite with handler);
        rewrite Hc, Hh; cbn [negb andb]
    end.
    destruct (Py.truthy _); autorewrite with handler;
      unfold is_09, date_time_string;
      cbn [new_handler request_version wfile headers_buffer command];
      rewrite H9; cbn [app]; reflexivity.
Qed.

Lemma unsupported_method_is_501_with_cors_witness :
  exists h : handler,
    RequestHandlerClass Demo.lib Demo.root Demo.fs
      (Demo.conn "OPTIONS / HTTP/1.1") = Ok tt h /\
    status_line (wfile h)
    = Some ("HTTP/1.0 501 Unsupported method ('OPTIONS')" ++ Py.CRLF) /\
    has_line (header_line "Access-Control-Allow-Methods" "GET, POST, OPTIONS")
      match wfile h with Head lines :: _ => lines | _ => [] end = true.
Proof.
  destruct (unsupported_method_is_501_with_cors Demo.lib Demo.root Demo.fs
              (Demo.conn "OPTIONS / HTTP/1.1")
              (mkRequest "OPTIONS" "/" "HTTP/1.1" [] 5))
    as (h & Hrun & Hw).
  - vm_compute. reflexivity.
  - intros H. discriminate H.
  - intros H. discriminate H.
  - intros H. discriminate H.
  - exists h. split; [exact Hrun |]. rewrite Hw. split; reflexivity.
Defined.

(** X11: HEAD is not rewritten.  When the served directory has no index
    file, a HEAD for [/] that [parse_request] accepts is answered 200 (the
    headers of the directory listing) while such a GET for [/] is answered
    404: the two disagree. *)
Theorem head_and_get_disagree_on_root_without_index
        (lib : stdlib) (dir : string) (fs : filesystem)
        (ch cg : connection)
        (version : string) (hdrs : list (string * string)) (now : nat)
        (names : list string) :
  parsed lib dir ch = Some (mkRequest "HEAD" "/" version hdrs now) ->
  parsed lib dir cg = Some (mkRequest "GET" "/" version hdrs now) ->
  isdir fs
    (SimpleHTTPRequestHandler.translate_path lib
       (new_handler dir (mkRequest "HEAD" "/" version hdrs now)) "/") = true ->
  Py.endswith "/" (urlsplit_path lib "/") = true ->
  isfile fs
    (posixpath.join
       (SimpleHTTPRequestHandler.translate_path lib
          (new_handler dir (mkRequest "HEAD" "/" version hdrs now)) "/")
       "index.html") = false ->
  isfile fs
    (posixpath.join
       (SimpleHTTPRequestHandler.translate_path lib
          (new_handler dir (mkRequest "HEAD" "/" version hdrs now)) "/")
       "index.htm") = false ->
  listdir fs
    (SimpleHTTPRequestHandler.translate_path lib
       (new_handler dir (mkRequest "HEAD" "/" version hdrs now)) "/") = Some names ->
  isdir fs
    (SimpleHTTPRequestHandler.translate_path lib
       (new_handler dir (mkRequest "GET" "/" version hdrs now)) "/index.html") = false ->
  open_rb fs
    (SimpleHTTPRequestHandler.translate_path lib
       (new_handler dir (mkRequest "GET" "/" version hdrs now)) "/index.html")
  = OpenOSError ->
  exists hh hg : handler,
    RequestHandlerClass lib dir fs ch = Ok tt hh /\
    log hh = [LogRequest 200] /\
    body_of (wfile hh) = "" /\
    RequestHandlerClass lib dir fs cg = Ok tt hg /\
    log hg = [LogError 404 "File not found"; LogRequest 404].
Proof.
  intros Hph Hpg Hroot Hurl Hi1 Hi2 Hls Hidx Hopen.
  rewrite (handle_parsed lib dir fs ch _ Hph), (handle_parsed lib dir fs cg _ Hpg).
  set (hh := new_handler dir (mkRequest "HEAD" "/" version hdrs now)) in *.
  set (hg := new_handler dir (mkRequest "GET" "/" version hdrs now)) in *.
  eexists. exists (send_error lib MyHTTPRequestHandler.end_headers 404
                     (Some "File not found") None (set_path "/index.html" hg)).
  split; [| split; [| split; [| split]]].
  - unfold dispatched, MyHTTPRequestHandler.handle_one_request,
      handle_one_request. cbv zeta. fold hh.
    change (MyHTTPRequestHandler.getattr lib ("do_" ++ command hh))
      with (Some (SimpleHTTPRequestHandler.do_HEAD lib
                    MyHTTPRequestHandler.end_headers)).
    cbv iota.
    unfold SimpleHTTPRequestHandler.do_HEAD, SimpleHTTPRequestHandler.send_head.
    cbv zeta. change (path hh) with "/". rewrite Hroot, Hurl. cbn [negb].
    rewrite Hi1, Hi2.
    unfold SimpleHTTPRequestHandler.list_directory. rewrite Hls.
    change (path hh) with "/". reflexivity.
  - autorewrite with handler. reflexivity.
  - autorewrite with handler. change (wfile hh) with (@nil chunk).
    destruct (is_09 hh); reflexivity.
  - unfold dispatched, MyHTTPRequestHandler.handle_one_request,
      handle_one_request. cbv zeta. fold hg.
    change (MyHTTPRequestHandler.getattr lib ("do_" ++ command hg))
      with (Some (MyHTTPRequestHandler.do_GET lib)).
    cbv iota.
    unfold MyHTTPRequestHandler.do_GET. cbv zeta.
    change (MyHTTPRequestHandler.rewrite_path hg) with (set_path "/index.html" hg).
    unfold SimpleHTTPRequestHandler.do_GET, SimpleHTTPRequestHandler.send_head.
    cbv zeta. change (path (set_path "/index.html" hg)) with "/index.html".
    change (SimpleHTTPRequestHandler.translate_path lib
              (set_path "/index.html" hg) "/index.html")
      with (SimpleHTTPRequestHandler.translate_path lib hg "/index.html").
    rewrite Hidx. unfold SimpleHTTPRequestHandler.send_file. cbv zeta.
    destruct (Py.endswith "/"
                (SimpleHTTPRequestHandler.translate_path lib hg "/index.html"));
      [reflexivity |].
    rewrite Hopen. reflexivity.
  - rewrite send_error_log. reflexivity.
Qed.

Lemma head_and_get_disagree_on_root_without_index_witness :
  exists hh hg : handler,
    RequestHandlerClass Demo.lib Demo.root Demo.bare_fs
      (Demo.conn "HEAD / HTTP/1.1") = Ok tt hh /\
    log hh = [LogRequest 200] /\
    body_of (wfile hh) = "" /\
    RequestHandlerClass Demo.lib Demo.root Demo.bare_fs
      (Demo.conn "GET / HTTP/1.1") = Ok tt hg /\
    log hg = [LogError 404 "File not found"; LogRequest 404].
Proof.
  apply (head_and_get_disagree_on_root_without_index Demo.lib Demo.root
           Demo.bare_fs (Demo.conn "HEAD / HTTP/1.1") (Demo.conn "GET / HTTP/1.1")
           "HTTP/1.1" [] 5 ["style.css"]);
    vm_compute; reflexivity.
Defined.
